(** * DynamicLibrary: a shallow embedding of src/DynamicLibrary.cpp

    The development follows the POSIX back-end of the library (the [#else]
    branches: [dlopen], [dlclose], [dlsym], [dlerror], [stat]), which is the
    one the project's Makefile links ([-ldl]).

    The operating system is a parameter: a [Platform] gives the behaviour of
    the loader, of the file system and of the clock over an abstract [World].
    Every method of the C++ classes is a function in a small state monad
    over the object ([Implementation]) and the environment ([Env]: the world
    plus the list of loader calls made so far, which plays the part of a spy
    loader).  A method whose C++ behaviour is undefined at some point (a
    [std::string] built from a null [char*]) has the outcome [Undefined]. *)

From Stdlib Require Import ZArith String List Bool Lia.
From stdpp Require Import base option gmap strings list fin_maps.

Local Open Scope string_scope.
Local Open Scope Z_scope.

(** ** Values of the program *)

(** [std::chrono::system_clock::time_point]: a count of clock ticks, held
    in an [int64_t]. *)
Definition time_point : Type := Z.

(** What an [int64_t] holds of an arithmetic result [z]: the value wraps
    around at 2^63. *)
Definition wrap_int64 (z : Z) : Z :=
  (z + 9223372036854775808) mod 18446744073709551616 - 9223372036854775808.

(** [LibHandle] is [void*]; an address returned by [dlsym] is [void*] too. *)
Definition LibHandle : Type := Z.
Definition nullptr : Z := 0.

(** [if (!p)] on a pointer. *)
Definition is_null (p : Z) : bool := p =? nullptr.

(** [enum class AutoReload] of DynamicLibrary.hpp: [Disabled], then
    [Enabled]. *)
Inductive AutoReload : Type := Disabled | Enabled.

#[global] Instance AutoReload_eq_dec : EqDecision AutoReload.
Proof. solve_decision. Defined.

(** [struct LibraryInfo] *)
Record LibraryInfo : Type := mkLibraryInfo {
  handle : LibHandle;
  path : string;
  last_modified : time_point;
  symbol_cache : gmap string Z;
  reload_capability_tested : bool;
  can_reload : bool
}.

(** [class DynamicLibrary::Implementation] (the mutex is left out: the
    model is sequential). *)
Record Implementation : Type := mkImplementation {
  lib : LibraryInfo;
  auto_reload : AutoReload;
  error_message : string
}.

(** The default member initialisers. *)
Definition LibraryInfo_default : LibraryInfo :=
  {| handle := nullptr; path := ""; last_modified := 0;
     symbol_cache := ∅; reload_capability_tested := false;
     can_reload := true |}.

Definition Implementation_default : Implementation :=
  {| lib := LibraryInfo_default; auto_reload := Enabled;
     error_message := "" |}.

(** Assignments to single members. *)
Definition with_lib (f : LibraryInfo -> LibraryInfo) (d : Implementation)
  : Implementation :=
  {| lib := f (lib d); auto_reload := auto_reload d;
     error_message := error_message d |}.

Definition assign_handle (h : LibHandle) : Implementation -> Implementation :=
  with_lib (fun l =>
    {| handle := h; path := path l; last_modified := last_modified l;
       symbol_cache := symbol_cache l;
       reload_capability_tested := reload_capability_tested l;
       can_reload := can_reload l |}).

Definition assign_path (p : string) : Implementation -> Implementation :=
  with_lib (fun l =>
    {| handle := handle l; path := p; last_modified := last_modified l;
       symbol_cache := symbol_cache l;
       reload_capability_tested := reload_capability_tested l;
       can_reload := can_reload l |}).

Definition assign_last_modified (t : time_point)
  : Implementation -> Implementation :=
  with_lib (fun l =>
    {| handle := handle l; path := path l; last_modified := t;
       symbol_cache := symbol_cache l;
       reload_capability_tested := reload_capability_tested l;
       can_reload := can_reload l |}).

Definition assign_symbol_cache (c : gmap string Z)
  : Implementation -> Implementation :=
  with_lib (fun l =>
    {| handle := handle l; path := path l; last_modified := last_modified l;
       symbol_cache := c;
       reload_capability_tested := reload_capability_tested l;
       can_reload := can_reload l |}).

Definition assign_reload_capability_tested (b : bool)
  : Implementation -> Implementation :=
  with_lib (fun l =>
    {| handle := handle l; path := path l; last_modified := last_modified l;
       symbol_cache := symbol_cache l;
       reload_capability_tested := b;
       can_reload := can_reload l |}).

Definition assign_can_reload (b : bool) : Implementation -> Implementation :=
  with_lib (fun l =>
    {| handle := handle l; path := path l; last_modified := last_modified l;
       symbol_cache := symbol_cache l;
       reload_capability_tested := reload_capability_tested l;
       can_reload := b |}).

Definition assign_auto_reload (m : AutoReload) (d : Implementation)
  : Implementation :=
  {| lib := lib d; auto_reload := m; error_message := error_message d |}.

Definition assign_error_message (msg : string) (d : Implementation)
  : Implementation :=
  {| lib := lib d; auto_reload := auto_reload d; error_message := msg |}.

(** ** The platform *)

(** The two flag words the program passes to [dlopen]. *)
Inductive DlopenFlags : Type :=
| RTLD_NOW_LOCAL    (* RTLD_NOW | RTLD_LOCAL *)
| RTLD_NOW_NOLOAD.  (* RTLD_NOW | RTLD_NOLOAD *)

(** What the program consumes from the operating system.  Queries read the
    world; loader calls and the pause return the next world. *)
Class Platform (World : Type) : Type := {
  (* [std::ifstream file(p); file.good()] *)
  ifstream_good : World -> string -> bool;
  (* [stat(p, &st)]: [Some st_mtime] when it returns 0 *)
  stat_mtime : World -> string -> option Z;
  (* [std::chrono::system_clock::now()] *)
  system_clock_now : World -> time_point;
  (* [dlopen(p, flags)]: the handle, null on failure *)
  dlopen : World -> string -> DlopenFlags -> LibHandle * World;
  (* [dlclose(h)]: the integer it returns *)
  dlclose : World -> LibHandle -> Z * World;
  (* [dlsym(h, name)]: the address *)
  dlsym : World -> LibHandle -> string -> Z * World;
  (* [dlerror()]: [None] for a null pointer *)
  dlerror : World -> option string * World;
  (* [std::this_thread::sleep_for(std::chrono::milliseconds(ms))] *)
  sleep_for : World -> Z -> World
}.

(** The loader calls a spy would record. *)
Inductive LoaderCall : Type :=
| CallDlopen (p : string) (flags : DlopenFlags)
| CallDlclose (h : LibHandle)
| CallDlsym (h : LibHandle) (name : string)
| CallSleep (ms : Z).

Record Env (World : Type) : Type := mkEnv {
  world : World;
  calls : list LoaderCall
}.
Arguments mkEnv {World} _ _.
Arguments world {World} _.
Arguments calls {World} _.

(** ** The monad of member functions *)

Inductive Outcome (World A : Type) : Type :=
| Ret (a : A) (d : Implementation) (e : Env World)
| Undefined.
Arguments Ret {World A} _ _ _.
Arguments Undefined {World A}.

Definition Op (World A : Type) : Type :=
  Implementation -> Env World -> Outcome World A.

Definition ret {World A} (a : A) : Op World A := fun d e => Ret a d e.

Definition bind {World A B} (m : Op World A) (k : A -> Op World B)
  : Op World B :=
  fun d e =>
    match m d e with
    | Ret a d' e' => k a d' e'
    | Undefined => Undefined
    end.

Definition undefined {World A} : Op World A := fun _ _ => Undefined.

(** [this] *)
Definition self {World} : Op World Implementation := fun d e => Ret d d e.

(** An assignment to a member. *)
Definition assign {World} (f : Implementation -> Implementation)
  : Op World unit :=
  fun d e => Ret tt (f d) e.

(** A query of the environment. *)
Definition ask {World A} (q : Env World -> A) : Op World A :=
  fun d e => Ret (q e) d e.

Declare Scope op_scope.
Delimit Scope op_scope with op.
Notation "'let*' x ':=' m 'in' k" := (bind m (fun x => k))
  (at level 10, x pattern, m at level 100, k at level 200) : op_scope.
Notation "m ';;' k" := (bind m (fun _ => k))
  (at level 100, k at level 200, right associativity) : op_scope.

(** ** The steps of a member function

    [unloadInternal] is written once, over the operations it uses, and
    run on two machines: the monad [Op] above, and one that also records,
    in program order, each write to a member and each call of the loader
    with the object as it is when the call is made. *)

Class Machine (M : Type -> Type) : Type := {
  m_ret : forall {A : Type}, A -> M A;
  m_bind : forall {A B : Type}, M A -> (A -> M B) -> M B;
  m_undefined : forall {A : Type}, M A;
  m_self : M Implementation;
  m_assign : (Implementation -> Implementation) -> M unit;
  m_dlclose : LibHandle -> M Z;
  m_dlerror : M (option string)
}.

Inductive Effect : Type :=
| Wrote (after : Implementation)
| Called (object : Implementation) (call : LoaderCall).

Definition Logged (World A : Type) : Type :=
  Implementation -> Env World -> list Effect * Outcome World A.

Declare Scope machine_scope.
Delimit Scope machine_scope with machine.
Notation "'let*' x ':=' m 'in' k" := (m_bind m (fun x => k))
  (at level 10, x pattern, m at level 100, k at level 200) : machine_scope.
Notation "m ';;' k" := (m_bind m (fun _ => k))
  (at level 100, k at level 200, right associativity) : machine_scope.

(** ** [DynamicLibrary::Implementation] *)

Module Implementation.
Section WithPlatform.
Context {World : Type} {P : Platform World}.
Local Open Scope op_scope.

(** The loader calls, each recorded in [calls]. *)
Definition call_dlopen (p : string) (flags : DlopenFlags)
  : Op World LibHandle :=
  fun d e =>
    let '(h, w) := dlopen (world e) p flags in
    Ret h d (mkEnv w (calls e ++ [CallDlopen p flags])).

Definition call_dlclose (h : LibHandle) : Op World Z :=
  fun d e =>
    let '(rc, w) := dlclose (world e) h in
    Ret rc d (mkEnv w (calls e ++ [CallDlclose h])).

Definition call_dlsym (h : LibHandle) (name : string) : Op World Z :=
  fun d e =>
    let '(a, w) := dlsym (world e) h name in
    Ret a d (mkEnv w (calls e ++ [CallDlsym h name])).

Definition call_dlerror : Op World (option string) :=
  fun d e =>
    let '(msg, w) := dlerror (world e) in
    Ret msg d (mkEnv w (calls e)).

Definition call_sleep_for (ms : Z) : Op World unit :=
  fun d e =>
    Ret tt d (mkEnv (sleep_for (world e) ms) (calls e ++ [CallSleep ms])).

(** [std::string error = dlerror() ? dlerror() : "Unknown error";]
    The first call decides; when it is not null the string is built from
    the pointer the second call returns, and building a [std::string] from
    a null pointer is undefined. *)
Definition dlerror_or_unknown : Op World string :=
  let* first := call_dlerror in
  match first with
  | None => ret "Unknown error"
  | Some _ =>
      let* second := call_dlerror in
      match second with
      | Some msg => ret msg
      | None => undefined
      end
  end.

(** [validatePath] *)
Definition validatePath (p_path : string) : Op World bool :=
  if String.eqb p_path "" then
    assign (assign_error_message "Library path cannot be empty");;
    ret false
  else
    let* good := ask (fun e => ifstream_good (world e) p_path) in
    if negb good then
      assign (assign_error_message
        ("Library file does not exist or is not accessible: " +:+ p_path));;
      ret false
    else ret true.

(** [std::chrono::system_clock::from_time_t]: seconds to ticks of the
    clock (nanoseconds), the product computed in 64 bits. *)
Definition from_time_t (t : Z) : time_point := wrap_int64 (t * 1000000000).

(** [getFileModificationTime] is [const] and writes no member. *)
Definition getFileModificationTime (e : Env World) (p_path : string)
  : time_point :=
  match stat_mtime (world e) p_path with
  | Some st_mtime => from_time_t st_mtime
  | None => system_clock_now (world e)
  end.

(** [loadInternal] *)
Definition loadInternal : Op World bool :=
  let* d := self in
  let* h := call_dlopen (path (lib d)) RTLD_NOW_LOCAL in
  assign (assign_handle h);;
  if is_null h then
    let* error := dlerror_or_unknown in
    assign (assign_error_message
      ("Failed to load library '" +:+ path (lib d) +:+ "': " +:+ error));;
    ret false
  else ret true.

(** The two machines. *)
Definition op_machine : Machine (Op World) :=
  {| m_ret := @ret World; m_bind := @bind World;
     m_undefined := @undefined World; m_self := self; m_assign := assign;
     m_dlclose := call_dlclose; m_dlerror := call_dlerror |}.

Definition logged_machine : Machine (Logged World) :=
  {| m_ret := fun A (a : A) d e => ([], Ret a d e);
     m_bind := fun A B (m : Logged World A) (k : A -> Logged World B) d e =>
       match m d e with
       | (seen, Ret a d' e') =>
           let '(more, o) := k a d' e' in ((seen ++ more)%list, o)
       | (seen, Undefined) => (seen, Undefined)
       end;
     m_undefined := fun A d e => ([], Undefined);
     m_self := fun d e => ([], Ret d d e);
     m_assign := fun f d e => ([Wrote (f d)], Ret tt (f d) e);
     m_dlclose := fun h d e =>
       ([Called d (CallDlclose h)], call_dlclose h d e);
     m_dlerror := fun d e => ([], call_dlerror d e) |}.

(** [std::string error = dlerror() ? dlerror() : "Unknown error";] on a
    machine. *)
Definition dlerror_or_unknown_on {M : Type -> Type} (machine : Machine M)
  : M string :=
  (let* first := m_dlerror in
   match first with
   | None => m_ret "Unknown error"
   | Some _ =>
       let* second := m_dlerror in
       match second with
       | Some msg => m_ret msg
       | None => m_undefined
       end
   end)%machine.

(** [unloadInternal] on a machine. *)
Definition unloadInternal_on {M : Type -> Type} (machine : Machine M)
  : M bool :=
  (let* d := m_self in
   if is_null (handle (lib d)) then m_ret true
   else
     m_assign (assign_symbol_cache ∅);;
     let* rc := m_dlclose (handle (lib d)) in
     let success := rc =? 0 in
     (if negb success then
        let* error := dlerror_or_unknown_on machine in
        m_assign (assign_error_message
          ("Failed to unload library '" +:+ path (lib d) +:+ "': "
           +:+ error))
      else m_ret tt);;
     m_assign (assign_handle nullptr);;
     m_ret success)%machine.

(** [unloadInternal] *)
Definition unloadInternal : Op World bool := unloadInternal_on op_machine.

(** [getSymbolInternal]: the resolution by the platform. *)
Definition getSymbolInternal (p_symbol_name : string) : Op World Z :=
  let* d := self in
  call_dlerror;;
  let* symbol := call_dlsym (handle (lib d)) p_symbol_name in
  let* error := call_dlerror in
  match error with
  | Some msg =>
      assign (assign_error_message
        ("Symbol '" +:+ p_symbol_name +:+ "' not found in library '"
         +:+ path (lib d) +:+ "': " +:+ msg));;
      ret nullptr
  | None => ret symbol
  end.

(** [needsReload] is [const] and writes no member. *)
Definition needsReload (d : Implementation) (e : Env World) : bool :=
  let current_mod_time := getFileModificationTime e (path (lib d)) in
  current_mod_time >? last_modified (lib d).

(** [canReload]: [const], but the two verdict members are [mutable]. *)
Definition canReload : Op World bool :=
  let* d := self in
  if is_null (handle (lib d)) || reload_capability_tested (lib d) then
    ret (can_reload (lib d))
  else
    assign (assign_reload_capability_tested true);;
    let* test_handle := call_dlopen (path (lib d)) RTLD_NOW_NOLOAD in
    (if negb (is_null test_handle) then
       let* rc := call_dlclose test_handle in
       assign (assign_can_reload (rc =? 0))
     else
       let* test_handle := call_dlopen (path (lib d)) RTLD_NOW_LOCAL in
       if negb (is_null test_handle) then
         let* rc := call_dlclose test_handle in
         assign (assign_can_reload (rc =? 0))
       else assign (assign_can_reload false));;
    let* d' := self in
    ret (can_reload (lib d')).

(** [reloadInternal] *)
Definition reloadInternal : Op World bool :=
  let* able := canReload in
  if negb able then
    assign (assign_error_message
      "Library cannot be reloaded - reload capability not supported");;
    ret false
  else
    let* d := self in
    let path := path (lib d) in
    let* unloaded := unloadInternal in
    (if negb unloaded then
       assign (assign_error_message
         "Warning: Unload failed, attempting reload anyway")
     else ret tt);;
    call_sleep_for 10;;
    assign (assign_path path);;
    let* t := ask (fun e => getFileModificationTime e path) in
    assign (assign_last_modified t);;
    let* success := loadInternal in
    (if negb success then
       let* d' := self in
       assign (assign_error_message
         ("Failed to reload library '" +:+ path +:+ "': "
          +:+ error_message d'))
     else ret tt);;
    ret success.

End WithPlatform.
End Implementation.

(** ** [DynamicLibrary] *)

(** What a constructor call comes to: an object, a thrown
    [DynamicLibraryException] carrying a message, or undefined behaviour. *)
Inductive Constructed (World : Type) : Type :=
| Built (d : Implementation) (e : Env World)
| Thrown (what : string) (e : Env World)
| ConstructUndefined.
Arguments Built {World} _ _.
Arguments Thrown {World} _ _.
Arguments ConstructUndefined {World}.

Module DynamicLibrary.
Section WithPlatform.
Context {World : Type} {P : Platform World}.
Local Open Scope op_scope.

(** [load] *)
Definition load (p_library_path : string) (p_auto_reload : AutoReload)
  : Op World bool :=
  let* d := self in
  (if negb (is_null (handle (lib d))) then
     Implementation.unloadInternal;; ret tt
   else ret tt);;
  let* valid := Implementation.validatePath p_library_path in
  if negb valid then ret false
  else
    assign (assign_path p_library_path);;
    let* t := ask (fun e =>
                Implementation.getFileModificationTime e p_library_path) in
    assign (assign_last_modified t);;
    assign (assign_auto_reload p_auto_reload);;
    Implementation.loadInternal.

(** [DynamicLibrary()] *)
Definition DynamicLibrary_default : Implementation := Implementation_default.

(** [DynamicLibrary(path, auto_reload)] *)
Definition DynamicLibrary_from_path (p_library_path : string)
    (p_auto_reload : AutoReload) (e : Env World) : Constructed World :=
  match load p_library_path p_auto_reload Implementation_default e with
  | Ret true d e' => Built d e'
  | Ret false d e' => Thrown (error_message d) e'
  | Undefined => ConstructUndefined
  end.

(** [unload] *)
Definition unload : Op World bool := Implementation.unloadInternal.

(** [isLoaded] *)
Definition isLoaded : Op World bool :=
  let* d := self in ret (negb (is_null (handle (lib d)))).

(** [DynamicLibrary::getSymbolInternal]: what [getSymbol] and
    [getFunction] call. *)
Definition getSymbolInternal (p_symbol_name : string) : Op World Z :=
  let* d := self in
  if is_null (handle (lib d)) then
    assign (assign_error_message "Library not loaded");;
    ret nullptr
  else
    let* stale :=
      (if bool_decide (auto_reload d = Enabled) then
         ask (Implementation.needsReload d)
       else ret false) in
    let* reloaded :=
      (if stale then Implementation.reloadInternal else ret true) in
    if negb reloaded then ret nullptr
    else
      let* d' := self in
      match symbol_cache (lib d') !! p_symbol_name with
      | Some cached => ret cached
      | None =>
          let* symbol := Implementation.getSymbolInternal p_symbol_name in
          (if negb (is_null symbol) then
             let* d'' := self in
             assign (assign_symbol_cache
                       (<[p_symbol_name := symbol]> (symbol_cache (lib d''))))
           else ret tt);;
          ret symbol
      end.

(** [checkForUpdates] *)
Definition checkForUpdates : Op World bool :=
  let* d := self in ask (Implementation.needsReload d).

(** [reload] *)
Definition reload : Op World bool :=
  let* d := self in
  if negb (is_null (handle (lib d))) then Implementation.reloadInternal
  else ret false.

(** [setAutoReload] *)
Definition setAutoReload (p_enable : AutoReload) : Op World unit :=
  assign (assign_auto_reload p_enable).

(** [canReload] *)
Definition canReload : Op World bool := Implementation.canReload.

(** [getErrorMessage] *)
Definition getErrorMessage : Op World string :=
  let* d := self in ret (error_message d).

(** [touch] *)
Definition touch : Op World bool :=
  let* now := ask (fun e => system_clock_now (world e)) in
  assign (assign_last_modified now);;
  let* d := self in
  if bool_decide (auto_reload d = Enabled) then Implementation.reloadInternal
  else ret true.

End WithPlatform.
End DynamicLibrary.

(** ** [DynamicLibraryManager] *)

(** [std::unique_ptr<DynamicLibrary>]: the address of the object and the
    object it alone owns. *)
Record unique_ptr : Type := mk_unique_ptr {
  get : positive;
  pointee : Implementation
}.

(** [class DynamicLibraryManager::Implementation] *)
Record ManagerImplementation : Type := mkManager {
  m_libraries : gmap string unique_ptr
}.

(** What a call of the manager comes to; a [shared_ptr] with the empty
    deleter is the address it aliases, [None] for a null one. *)
Inductive ManagerOutcome (World A : Type) : Type :=
| Returned (a : A) (m : ManagerImplementation) (e : Env World)
| Raised (what : string) (m : ManagerImplementation) (e : Env World)
| ManagerUndefined.
Arguments Returned {World A} _ _ _.
Arguments Raised {World A} _ _ _.
Arguments ManagerUndefined {World A}.

Module DynamicLibraryManager.
Section WithPlatform.
Context {World : Type} {P : Platform World}.

(** The addresses of the objects the manager owns. *)
Definition owned (m : ManagerImplementation) : gset positive :=
  map_to_set (fun (_ : string) (u : unique_ptr) => get u) (m_libraries m).

(** [std::make_unique<DynamicLibrary>(path, mode)]: the object is built at
    an address not in use. *)
Definition make_unique (m : ManagerImplementation) (d : Implementation)
  : unique_ptr :=
  {| get := fresh (owned m); pointee := d |}.

(** [loadLibrary] *)
Definition loadLibrary (p_name p_path : string) (p_auto_reload : AutoReload)
    (m : ManagerImplementation) (e : Env World)
  : ManagerOutcome World (option positive) :=
  match m_libraries m !! p_name with
  | Some it => Returned (Some (get it)) m e
  | None =>
      match DynamicLibrary.DynamicLibrary_from_path p_path p_auto_reload e with
      | Built d e' =>
          let lib := make_unique m d in
          let ptr := get lib in
          Returned (Some ptr)
            {| m_libraries := <[p_name := lib]> (m_libraries m) |} e'
      | Thrown what e' => Raised what m e'
      | ConstructUndefined => ManagerUndefined
      end
  end.

(** [unloadLibrary]: [erase] destroys the object; the destructors are the
    defaulted ones and call nothing of the platform. *)
Definition unloadLibrary (p_name : string)
    (m : ManagerImplementation) (e : Env World)
  : ManagerOutcome World unit :=
  Returned tt {| m_libraries := delete p_name (m_libraries m) |} e.

(** [getLibrary] *)
Definition getLibrary (p_name : string)
    (m : ManagerImplementation) (e : Env World)
  : ManagerOutcome World (option positive) :=
  match m_libraries m !! p_name with
  | Some it => Returned (Some (get it)) m e
  | None => Returned None m e
  end.

(** The loop of [checkAllForUpdates] over the pairs of the map, in the
    order the container yields them. *)
Fixpoint checkAllForUpdates_loop (pairs : list (string * unique_ptr))
    (m : ManagerImplementation) (e : Env World)
  : ManagerOutcome World bool :=
  match pairs with
  | [] => Returned false m e
  | library_pair :: rest =>
      match DynamicLibrary.checkForUpdates (pointee library_pair.2) e with
      | Ret updated d e' =>
          let m' :=
            {| m_libraries :=
                 <[library_pair.1 :=
                     {| get := get library_pair.2; pointee := d |}]>
                   (m_libraries m) |} in
          if updated then Returned true m' e'
          else checkAllForUpdates_loop rest m' e'
      | Undefined => ManagerUndefined
      end
  end.

(** [checkAllForUpdates] *)
Definition checkAllForUpdates (m : ManagerImplementation) (e : Env World)
  : ManagerOutcome World bool :=
  checkAllForUpdates_loop (map_to_list (m_libraries m)) m e.

End WithPlatform.
End DynamicLibraryManager.


(** ** Notions the properties are stated with *)

(** The invariant of the record: no cached address without a module. *)
Definition cache_invariant (d : Implementation) : Prop :=
  handle (lib d) = nullptr -> symbol_cache (lib d) = ∅.

(** The operations of a handle that change it. *)
Inductive Operation : Type :=
| OpLoad (p_library_path : string) (p_auto_reload : AutoReload)
| OpUnload
| OpReload
| OpGetSymbol (p_symbol_name : string)
| OpTouch
| OpCanReload
| OpCheckForUpdates
| OpSetAutoReload (p_enable : AutoReload).

(** The loader calls of a probe of the module at [p]. *)
Inductive probe_calls (p : string) : list LoaderCall -> Prop :=
| probe_resident (h : LibHandle) :
    probe_calls p [CallDlopen p RTLD_NOW_NOLOAD; CallDlclose h]
| probe_reopened (h : LibHandle) :
    probe_calls p [CallDlopen p RTLD_NOW_NOLOAD; CallDlopen p RTLD_NOW_LOCAL;
                   CallDlclose h]
| probe_refused :
    probe_calls p [CallDlopen p RTLD_NOW_NOLOAD; CallDlopen p RTLD_NOW_LOCAL].

Section Notions.
Context {World : Type} {P : Platform World}.
Local Open Scope op_scope.

Definition perform (op : Operation) : Op World unit :=
  match op with
  | OpLoad p m => DynamicLibrary.load p m;; ret tt
  | OpUnload => DynamicLibrary.unload;; ret tt
  | OpReload => DynamicLibrary.reload;; ret tt
  | OpGetSymbol name => DynamicLibrary.getSymbolInternal name;; ret tt
  | OpTouch => DynamicLibrary.touch;; ret tt
  | OpCanReload => DynamicLibrary.canReload;; ret tt
  | OpCheckForUpdates => DynamicLibrary.checkForUpdates;; ret tt
  | OpSetAutoReload m => DynamicLibrary.setAutoReload m
  end.

(** What [unloadInternal] does once the cache is emptied: the platform
    close, the diagnostic, and the handle forgotten. *)
Definition close_and_forget : Op World bool :=
  let* d := self in
  let* rc := Implementation.call_dlclose (handle (lib d)) in
  (if negb (rc =? 0) then
     let* error := Implementation.dlerror_or_unknown in
     assign (assign_error_message
       ("Failed to unload library '" +:+ path (lib d) +:+ "': " +:+ error))
   else ret tt);;
  assign (assign_handle nullptr);;
  ret (rc =? 0).

(** The second of two consecutive calls does not reload: auto-reload is
    off, or the file is not newer than the baseline. *)
Definition no_reload_due (d : Implementation) (e : Env World) : Prop :=
  auto_reload d = Disabled \/ Implementation.needsReload d e = false.

(** A resolved symbol enters the cache when its address is not null. *)
Definition remember (name : string) (symbol : Z) (d : Implementation)
  : Implementation :=
  if is_null symbol then d
  else assign_symbol_cache (<[name := symbol]> (symbol_cache (lib d))) d.

(** [later d d']: the object [d'] is what [d] has become after any number
    of operations that returned, each in whatever environment it found. *)
Inductive later : Implementation -> Implementation -> Prop :=
| later_now (d : Implementation) : later d d
| later_step (d d1 d2 : Implementation) (op : Operation)
    (e e' : Env World) :
    later d d1 -> perform op d1 e = Ret tt d2 e' -> later d d2.

(** The part of [DynamicLibrary::getSymbolInternal] after the reload
    check: the cache is consulted, and the platform on a miss. *)
Definition resolve_cached (name : string) : Op World Z :=
  let* d := self in
  match symbol_cache (lib d) !! name with
  | Some cached => ret cached
  | None =>
      let* symbol := Implementation.getSymbolInternal name in
      assign (remember name symbol);;
      ret symbol
  end.

End Notions.

(** ** A scripted platform

    A small loader, file system and clock to run the program on concrete
    inputs.  A file is a modification time in seconds, whether a stream
    opens on it, and the handle [dlopen] gives for it (null when it is not
    a loadable object).  [dlclose] returns the next code of a script (0
    when the script is exhausted).  [dlerror] follows POSIX: it returns the
    pending message once and clears it. *)

Module Sim.

Record File : Type := mkFile {
  mtime : Z;
  readable : bool;
  image : LibHandle
}.

Record SimWorld : Type := mkSimWorld {
  clock : time_point;
  files : list (string * File);
  exports : list (LibHandle * string * Z);
  resident : list LibHandle;
  close_script : list Z;
  pending : option string
}.

Definition set_pending (msg : option string) (w : SimWorld) : SimWorld :=
  {| clock := clock w; files := files w; exports := exports w;
     resident := resident w; close_script := close_script w;
     pending := msg |}.

Definition set_resident (r : list LibHandle) (w : SimWorld) : SimWorld :=
  {| clock := clock w; files := files w; exports := exports w;
     resident := r; close_script := close_script w;
     pending := pending w |}.

Definition set_close_script (s : list Z) (w : SimWorld) : SimWorld :=
  {| clock := clock w; files := files w; exports := exports w;
     resident := resident w; close_script := s;
     pending := pending w |}.

Definition set_clock (t : time_point) (w : SimWorld) : SimWorld :=
  {| clock := t; files := files w; exports := exports w;
     resident := resident w; close_script := close_script w;
     pending := pending w |}.

Definition set_files (fs : list (string * File)) (w : SimWorld) : SimWorld :=
  {| clock := clock w; files := fs; exports := exports w;
     resident := resident w; close_script := close_script w;
     pending := pending w |}.

Fixpoint find_file (fs : list (string * File)) (p : string) : option File :=
  match fs with
  | [] => None
  | (q, f) :: rest => if String.eqb q p then Some f else find_file rest p
  end.

Fixpoint find_export (xs : list (LibHandle * string * Z)) (h : LibHandle)
    (name : string) : option Z :=
  match xs with
  | [] => None
  | (h', n, a) :: rest =>
      if (h' =? h) && String.eqb n name then Some a
      else find_export rest h name
  end.

Fixpoint is_resident (r : list LibHandle) (h : LibHandle) : bool :=
  match r with
  | [] => false
  | h' :: rest => (h' =? h) || is_resident rest h
  end.

Fixpoint remove_one (r : list LibHandle) (h : LibHandle) : list LibHandle :=
  match r with
  | [] => []
  | h' :: rest => if h' =? h then rest else h' :: remove_one rest h
  end.

Definition sim_dlopen (w : SimWorld) (p : string) (flags : DlopenFlags)
  : LibHandle * SimWorld :=
  match find_file (files w) p with
  | Some f =>
      if is_null (image f) then
        (nullptr, set_pending (Some "invalid ELF header") w)
      else
        match flags with
        | RTLD_NOW_LOCAL => (image f, set_resident (image f :: resident w) w)
        | RTLD_NOW_NOLOAD =>
            if is_resident (resident w) (image f)
            then (image f, set_resident (image f :: resident w) w)
            else (nullptr, w)
        end
  | None => (nullptr, set_pending (Some "cannot open shared object file") w)
  end.

Definition sim_dlclose (w : SimWorld) (h : LibHandle) : Z * SimWorld :=
  match close_script w with
  | [] => (0, set_resident (remove_one (resident w) h) w)
  | rc :: rest =>
      if rc =? 0
      then (0, set_close_script rest
                 (set_resident (remove_one (resident w) h) w))
      else (rc, set_close_script rest
                  (set_pending (Some "shared object cannot be closed") w))
  end.

Definition sim_dlsym (w : SimWorld) (h : LibHandle) (name : string)
  : Z * SimWorld :=
  match find_export (exports w) h name with
  | Some a => (a, w)
  | None => (nullptr, set_pending (Some "undefined symbol") w)
  end.

Definition sim_dlerror (w : SimWorld) : option string * SimWorld :=
  (pending w, set_pending None w).

#[global] Instance sim_platform : Platform SimWorld := {
  ifstream_good w p :=
    match find_file (files w) p with
    | Some f => readable f
    | None => false
    end;
  stat_mtime w p := mtime <$> find_file (files w) p;
  system_clock_now w := clock w;
  dlopen := sim_dlopen;
  dlclose := sim_dlclose;
  dlsym := sim_dlsym;
  dlerror := sim_dlerror;
  sleep_for w ms := set_clock (clock w + ms * 1000000) w
}.

(** Two libraries on disk, both written at second 1000; the clock stands
    at second 2000.  A later build of libexample loads at 12288. *)
Definition disk : list (string * File) :=
  [ ("./libexample.so", mkFile 1000 true 4096);
    ("./libgood.so", mkFile 1000 true 8192) ].

Definition symbols : list (LibHandle * string * Z) :=
  [ (4096, "add", 4196); (8192, "safe_function", 8292);
    (12288, "add", 12388) ].

Definition boot : SimWorld :=
  {| clock := 2000000000000; files := disk; exports := symbols;
     resident := []; close_script := []; pending := None |}.

Definition start (w : SimWorld) : Env SimWorld := mkEnv w [].

(** The file at [p] is written again at second [t], with image [h]. *)
Fixpoint rewrite_file (fs : list (string * File)) (p : string) (t : Z)
    (h : LibHandle) : list (string * File) :=
  match fs with
  | [] => []
  | (q, f) :: rest =>
      if String.eqb q p
      then (q, mkFile t (readable f) h) :: rest
      else (q, f) :: rewrite_file rest p t h
  end.

(** A scenario: calls on one handle, and what happens around it. *)
Inductive Step : Type :=
| Call (op : Operation)
| Rebuilt (p : string) (t : Z) (h : LibHandle)
| CloseWillReturn (codes : list Z).

Definition happen (s : Step) (d : Implementation) (e : Env SimWorld)
  : Outcome SimWorld unit :=
  match s with
  | Call op => perform op d e
  | Rebuilt p t h =>
      Ret tt d
        (mkEnv (set_files (rewrite_file (files (world e)) p t h) (world e))
           (calls e))
  | CloseWillReturn codes =>
      Ret tt d (mkEnv (set_close_script codes (world e)) (calls e))
  end.

Fixpoint scenario (steps : list Step) (d : Implementation)
    (e : Env SimWorld) : Outcome SimWorld unit :=
  match steps with
  | [] => Ret tt d e
  | s :: rest =>
      match happen s d e with
      | Ret _ d' e' => scenario rest d' e'
      | Undefined => Undefined
      end
  end.

(** The object and the environment a scenario started on a fresh object
    in [boot] ends with. *)
Definition object_after (steps : list Step) : Implementation :=
  match scenario steps Implementation_default (start boot) with
  | Ret _ d _ => d
  | Undefined => Implementation_default
  end.

Definition env_after (steps : list Step) : Env SimWorld :=
  match scenario steps Implementation_default (start boot) with
  | Ret _ _ e => e
  | Undefined => start boot
  end.

(** The object and the environment of an outcome. *)
Definition object_of {A : Type} (o : Outcome SimWorld A) : Implementation :=
  match o with
  | Ret _ d _ => d
  | Undefined => Implementation_default
  end.

Definition env_of {A : Type} (o : Outcome SimWorld A) : Env SimWorld :=
  match o with
  | Ret _ _ e => e
  | Undefined => start boot
  end.

(** A library loaded and a symbol resolved from it. *)
Definition resolved_add : list Step :=
  [ Call (OpLoad "./libexample.so" Enabled); Call (OpGetSymbol "add") ].

(** A library loaded; the next [dlclose] will report an error. *)
Definition close_will_fail : list Step :=
  [ Call (OpLoad "./libexample.so" Enabled); CloseWillReturn [1] ].

(** A library loaded; the close of the probe will report an error. *)
Definition probe_will_fail : list Step :=
  [ Call (OpLoad "./libexample.so" Enabled); CloseWillReturn [1] ].

(** A library probed with a negative verdict, then unloaded. *)
Definition refused_then_unloaded : list Step :=
  [ Call (OpLoad "./libexample.so" Enabled); CloseWillReturn [1];
    Call OpCanReload; Call OpUnload ].

(** A library loaded and unloaded, never probed. *)
Definition loaded_then_unloaded : list Step :=
  [ Call (OpLoad "./libexample.so" Enabled); Call OpUnload ].

(** A library loaded and probed; the third [dlclose] from now on will
    report an error. *)
Definition probed_example : list Step :=
  [ CloseWillReturn [0; 0; 1];
    Call (OpLoad "./libexample.so" Enabled); Call OpCanReload ].

(** ... and then another library loaded into the same object. *)
Definition probed_then_loaded_good : list Step :=
  (probed_example ++ [ Call (OpLoad "./libgood.so" Enabled) ])%list.

(** ... and a symbol asked of it. *)
Definition probed_then_asked : list Step :=
  (probed_then_loaded_good ++ [ Call (OpGetSymbol "safe_function") ])%list.

(** A symbol resolved, then the library rebuilt on disk at second 1500. *)
Definition resolved_then_rebuilt : list Step :=
  (resolved_add ++ [ Rebuilt "./libexample.so" 1500 12288 ])%list.

(** A library loaded without auto-reload; a symbol it does not export was
    asked for. *)
Definition asked_missing : list Step :=
  [ Call (OpLoad "./libexample.so" Disabled); Call (OpGetSymbol "missing") ].

(** libexample loaded with auto-reload disabled, and the environment
    after its file has been removed from the disk. *)
Definition loaded_disabled : list Step :=
  [ Call (OpLoad "./libexample.so" Disabled) ].

Definition file_removed : Env SimWorld :=
  mkEnv (set_files [] (world (env_after loaded_disabled)))
    (calls (env_after loaded_disabled)).

(** libexample loaded and probed (verdict [true]), then overwritten by
    something that is no loadable object. *)
Definition probed_then_broken : list Step :=
  [ Call (OpLoad "./libexample.so" Enabled); Call OpCanReload;
    Rebuilt "./libexample.so" 1500 nullptr ].

(** The manager after [loadLibrary("math", "./libexample.so")] on an
    empty one. *)
Definition manager_empty : ManagerImplementation :=
  {| m_libraries := ∅ |}.

Definition manager_of {A : Type} (o : ManagerOutcome SimWorld A)
  : ManagerImplementation :=
  match o with
  | Returned _ m _ => m
  | Raised _ m _ => m
  | ManagerUndefined => manager_empty
  end.

Definition manager_env_of {A : Type} (o : ManagerOutcome SimWorld A)
  : Env SimWorld :=
  match o with
  | Returned _ _ e => e
  | Raised _ _ e => e
  | ManagerUndefined => start boot
  end.

Definition math_registered : ManagerOutcome SimWorld (option positive) :=
  DynamicLibraryManager.loadLibrary "math" "./libexample.so" Enabled
    manager_empty (start boot).

End Sim.

(** ** A caller: the demo's [testLibraryUnloadability]

    A local [DynamicLibrary] is built with auto-reload enabled and asked
    [canReload]; a thrown exception gives [false].  The local object is
    destroyed on return, and its defaulted destructor calls nothing of the
    platform.  [None] stands for undefined behaviour. *)

Module Demo.
Section WithPlatform.
Context {World : Type} {P : Platform World}.

Definition testLibraryUnloadability (p_library_path : string)
    (e : Env World) : option (bool * Env World) :=
  match DynamicLibrary.DynamicLibrary_from_path p_library_path Enabled e with
  | Built testLib e' =>
      match DynamicLibrary.canReload testLib e' with
      | Ret verdict _ e'' => Some (verdict, e'')
      | Undefined => None
      end
  | Thrown _ e' => Some (false, e')
  | ConstructUndefined => None
  end.

End WithPlatform.
End Demo.

(** ** A second scripted platform: a loader without diagnostics

    Modules are resident by path: [dlopen] with [RTLD_NOLOAD] finds a
    module loaded under the same path, whatever the file on disk has
    become since.  [dlclose] returns the next code of a script.  [dlerror]
    always returns null. *)

Module Quiet.

Record QuietWorld : Type := mkQuietWorld {
  clock : time_point;
  files : list (string * Sim.File);
  loaded : list (string * LibHandle);
  close_codes : list Z
}.

Fixpoint find_loaded (l : list (string * LibHandle)) (p : string)
  : option LibHandle :=
  match l with
  | [] => None
  | (q, h) :: rest => if String.eqb q p then Some h else find_loaded rest p
  end.

Fixpoint drop_loaded (l : list (string * LibHandle)) (h : LibHandle)
  : list (string * LibHandle) :=
  match l with
  | [] => []
  | (q, h') :: rest => if h' =? h then rest else (q, h') :: drop_loaded rest h
  end.

Definition quiet_dlopen (w : QuietWorld) (p : string) (flags : DlopenFlags)
  : LibHandle * QuietWorld :=
  let fresh_load :=
    match Sim.find_file (files w) p with
    | Some f =>
        if is_null (Sim.image f) then (nullptr, w)
        else (Sim.image f,
              {| clock := clock w; files := files w;
                 loaded := (p, Sim.image f) :: loaded w;
                 close_codes := close_codes w |})
    | None => (nullptr, w)
    end in
  match find_loaded (loaded w) p with
  | Some h =>
      (h, {| clock := clock w; files := files w;
             loaded := (p, h) :: loaded w; close_codes := close_codes w |})
  | None =>
      match flags with
      | RTLD_NOW_NOLOAD => (nullptr, w)
      | RTLD_NOW_LOCAL => fresh_load
      end
  end.

Definition quiet_dlclose (w : QuietWorld) (h : LibHandle) : Z * QuietWorld :=
  match close_codes w with
  | [] =>
      (0, {| clock := clock w; files := files w;
             loaded := drop_loaded (loaded w) h; close_codes := [] |})
  | rc :: rest =>
      if rc =? 0
      then (0, {| clock := clock w; files := files w;
                  loaded := drop_loaded (loaded w) h; close_codes := rest |})
      else (rc, {| clock := clock w; files := files w;
                   loaded := loaded w; close_codes := rest |})
  end.

#[global] Instance quiet_platform : Platform QuietWorld := {
  ifstream_good w p :=
    match Sim.find_file (files w) p with
    | Some f => Sim.readable f
    | None => false
    end;
  stat_mtime w p := Sim.mtime <$> Sim.find_file (files w) p;
  system_clock_now w := clock w;
  dlopen := quiet_dlopen;
  dlclose := quiet_dlclose;
  dlsym w h name :=
    match Sim.find_export Sim.symbols h name with
    | Some a => (a, w)
    | None => (nullptr, w)
    end;
  dlerror w := (None, w);
  sleep_for w ms :=
    {| clock := clock w + ms * 1000000; files := files w;
       loaded := loaded w; close_codes := close_codes w |}
}.

(** The disk of [Sim], and a file that opens but is no loadable object. *)
Definition boot : QuietWorld :=
  {| clock := 2000000000000;
     files := ("./broken.so", Sim.mkFile 1000 true nullptr) :: Sim.disk;
     loaded := []; close_codes := [] |}.

Definition start (w : QuietWorld) : Env QuietWorld := mkEnv w [].

Definition object_of {A : Type} (o : Outcome QuietWorld A) : Implementation :=
  match o with
  | Ret _ d _ => d
  | Undefined => Implementation_default
  end.

Definition env_of {A : Type} (o : Outcome QuietWorld A) : Env QuietWorld :=
  match o with
  | Ret _ _ e => e
  | Undefined => start boot
  end.

(** libexample loaded in [boot]. *)
Definition example_loaded : Outcome QuietWorld bool :=
  DynamicLibrary.load "./libexample.so" Disabled Implementation_default
    (start boot).

(** ... and then its file overwritten by something that does not load. *)
Definition example_overwritten : Env QuietWorld :=
  mkEnv
    {| clock := clock (world (env_of example_loaded));
       files := Sim.rewrite_file (files (world (env_of example_loaded)))
                  "./libexample.so" 1500 nullptr;
       loaded := loaded (world (env_of example_loaded));
       close_codes := close_codes (world (env_of example_loaded)) |}
    (calls (env_of example_loaded)).

(** ... or the second [dlclose] from now on set to report an error. *)
Definition example_second_close_fails : Env QuietWorld :=
  mkEnv
    {| clock := clock (world (env_of example_loaded));
       files := files (world (env_of example_loaded));
       loaded := loaded (world (env_of example_loaded));
       close_codes := [0; 1] |}
    (calls (env_of example_loaded)).

End Quiet.

(** Unfolding of the monad and of the platform calls, and the
    simplification of what they leave. *)
Ltac unfold_op :=
  unfold Implementation.unloadInternal_on,
    Implementation.dlerror_or_unknown_on, Implementation.op_machine in *;
  cbn [m_ret m_bind m_undefined m_self m_assign m_dlclose m_dlerror] in *;
  unfold bind, ret, self, assign, ask, undefined,
    Implementation.call_dlopen, Implementation.call_dlclose,
    Implementation.call_dlsym, Implementation.call_dlerror,
    Implementation.call_sleep_for in *.

Ltac op_simpl := cbn [fst snd world calls negb orb andb] in *.

(** ** Properties *)

Section CheckForUpdates.
Context {World : Type} {P : Platform World}.

(** C1, as the code has it: [checkForUpdates] returns, with the object and
    the environment as they were, whether the observed timestamp is
    strictly later than the stored baseline.  When [stat] succeeds the
    observed timestamp is [st_mtime] in nanosecond ticks, the product
    [st_mtime * 1000000000] as 64 bits hold it (the product itself for
    times within 9223372036 seconds of the epoch).  When [stat] fails it is
    the current time, so that a file that cannot be reached is reported as
    updated exactly when the clock is past the baseline. *)
Theorem checkForUpdates_observes_mtime_or_now :
  forall (d : Implementation) (e : Env World),
    exists b : bool,
      DynamicLibrary.checkForUpdates d e = Ret b d e /\
      match stat_mtime (world e) (path (lib d)) with
      | Some st_mtime =>
          (b = true <->
           last_modified (lib d) < wrap_int64 (st_mtime * 1000000000)) /\
          (-9223372036 <= st_mtime <= 9223372036 ->
           (b = true <-> last_modified (lib d) < st_mtime * 1000000000))
      | None =>
          b = true <-> last_modified (lib d) < system_clock_now (world e)
      end.
Proof.
  intros d e.
  exists (Implementation.needsReload d e). split; [reflexivity|].
  unfold Implementation.needsReload, Implementation.getFileModificationTime,
    Implementation.from_time_t.
  destruct (stat_mtime (world e) (path (lib d))) as [st_mtime|].
  - split.
    + rewrite Z.gtb_ltb. apply Z.ltb_lt.
    + intros Hrange. rewrite Z.gtb_ltb, Z.ltb_lt.
      unfold wrap_int64. rewrite Z.mod_small by lia.
      split; intros H; lia.
  - rewrite Z.gtb_ltb. apply Z.ltb_lt.
Qed.

End CheckForUpdates.

(** libexample, written at second 1000, is loaded and then rebuilt at
    second 1500: [checkForUpdates] answers by comparing the baseline with
    1500 seconds in nanoseconds. *)
Lemma checkForUpdates_observes_mtime_or_now_witness :
  stat_mtime (world (Sim.env_after Sim.resolved_then_rebuilt))
    "./libexample.so" = Some 1500 /\
  last_modified (lib (Sim.object_after Sim.resolved_then_rebuilt))
  = 1000000000000 /\
  exists b : bool,
    DynamicLibrary.checkForUpdates
      (Sim.object_after Sim.resolved_then_rebuilt)
      (Sim.env_after Sim.resolved_then_rebuilt)
    = Ret b (Sim.object_after Sim.resolved_then_rebuilt)
        (Sim.env_after Sim.resolved_then_rebuilt) /\
    (b = true <-> 1000000000000 < 1500 * 1000000000).
Proof.
  split; [reflexivity|]. split; [reflexivity|].
  destruct (checkForUpdates_observes_mtime_or_now
              (Sim.object_after Sim.resolved_then_rebuilt)
              (Sim.env_after Sim.resolved_then_rebuilt))
    as (b & Hret & Hobserved).
  exists b. split; [exact Hret|].
  change (stat_mtime (world (Sim.env_after Sim.resolved_then_rebuilt))
            (path (lib (Sim.object_after Sim.resolved_then_rebuilt))))
    with (Some 1500) in Hobserved.
  change (last_modified (lib (Sim.object_after Sim.resolved_then_rebuilt)))
    with 1000000000000 in Hobserved.
  destruct Hobserved as (_ & Hin). apply Hin. lia.
Defined.

(** C1 as stated fails: libexample, last written at second 1000, is
    loaded at second 2000 and nothing is reported while the file is
    there; once the file is removed, [stat] fails and [checkForUpdates]
    reports an update, although nothing newer exists. *)
Lemma checkForUpdates_reports_missing_file :
  DynamicLibrary.checkForUpdates (Sim.object_after Sim.loaded_disabled)
    (Sim.env_after Sim.loaded_disabled)
  = Ret false (Sim.object_after Sim.loaded_disabled)
      (Sim.env_after Sim.loaded_disabled) /\
  stat_mtime (world Sim.file_removed) "./libexample.so" = None /\
  DynamicLibrary.checkForUpdates (Sim.object_after Sim.loaded_disabled)
    Sim.file_removed
  = Ret true (Sim.object_after Sim.loaded_disabled) Sim.file_removed.
Proof.
  repeat split; vm_compute; reflexivity.
Qed.

Section Steps.
Context {World : Type} {P : Platform World}.

Lemma is_null_true (p : Z) : is_null p = true <-> p = nullptr.
Proof. unfold is_null. apply Z.eqb_eq. Qed.

Lemma is_null_false (p : Z) : is_null p = false <-> p <> nullptr.
Proof. unfold is_null. apply Z.eqb_neq. Qed.

Lemma unloadInternal_unloaded (d : Implementation) (e : Env World) :
  handle (lib d) = nullptr ->
  Implementation.unloadInternal d e = Ret true d e.
Proof.
  intros H. unfold Implementation.unloadInternal. unfold_op.
  apply is_null_true in H. rewrite H. reflexivity.
Qed.

Lemma unloadInternal_loaded (d : Implementation) (e : Env World) :
  handle (lib d) <> nullptr ->
  Implementation.unloadInternal d e
  = close_and_forget (assign_symbol_cache ∅ d) e.
Proof.
  intros H. unfold Implementation.unloadInternal, close_and_forget.
  unfold_op. apply is_null_false in H. rewrite H. reflexivity.
Qed.

Lemma close_and_forget_returns (d : Implementation) (e : Env World)
    (b : bool) (d' : Implementation) (e' : Env World) :
  close_and_forget d e = Ret b d' e' ->
  handle (lib d') = nullptr /\
  symbol_cache (lib d') = symbol_cache (lib d) /\
  path (lib d') = path (lib d) /\
  last_modified (lib d') = last_modified (lib d) /\
  reload_capability_tested (lib d') = reload_capability_tested (lib d) /\
  can_reload (lib d') = can_reload (lib d) /\
  auto_reload d' = auto_reload d /\
  calls e' = (calls e ++ [CallDlclose (handle (lib d))])%list /\
  b = (fst (dlclose (world e) (handle (lib d))) =? 0).
Proof.
  unfold close_and_forget, Implementation.dlerror_or_unknown. unfold_op.
  destruct (dlclose (world e) (handle (lib d))) as [rc w] eqn:Hclose.
  op_simpl.
  destruct (rc =? 0) eqn:Hrc; op_simpl.
  - intros H; injection H as <- <- <-; cbn; tauto.
  - destruct (dlerror w) as [[m1|] w1]; op_simpl.
    + destruct (dlerror w1) as [[m2|] w2]; op_simpl.
      * intros H; injection H as <- <- <-; cbn; tauto.
      * discriminate.
    + intros H; injection H as <- <- <-; cbn; tauto.
Qed.

Lemma close_and_forget_success (d : Implementation) (e : Env World)
    (w : World) :
  dlclose (world e) (handle (lib d)) = (0, w) ->
  close_and_forget d e
  = Ret true (assign_handle nullptr d)
      (mkEnv w (calls e ++ [CallDlclose (handle (lib d))])).
Proof.
  intros H. unfold close_and_forget. unfold_op. rewrite H. reflexivity.
Qed.

Lemma canReload_cached (d : Implementation) (e : Env World) :
  is_null (handle (lib d)) || reload_capability_tested (lib d) = true ->
  Implementation.canReload d e = Ret (can_reload (lib d)) d e.
Proof.
  intros H. unfold Implementation.canReload. unfold_op. rewrite H.
  reflexivity.
Qed.

Lemma canReload_probes (d : Implementation) (e : Env World) :
  handle (lib d) <> nullptr ->
  reload_capability_tested (lib d) = false ->
  exists (b : bool) (e' : Env World) (probe : list LoaderCall),
    Implementation.canReload d e
    = Ret b (assign_can_reload b (assign_reload_capability_tested true d)) e'
    /\ calls e' = (calls e ++ probe)%list
    /\ probe_calls (path (lib d)) probe.
Proof.
  intros Hh Ht. unfold Implementation.canReload. unfold_op.
  apply is_null_false in Hh. rewrite Hh, Ht. op_simpl.
  destruct (dlopen (world e) (path (lib d)) RTLD_NOW_NOLOAD) as [h1 w1].
  op_simpl.
  destruct (is_null h1); op_simpl.
  - destruct (dlopen w1 (path (lib d)) RTLD_NOW_LOCAL) as [h2 w2].
    op_simpl.
    destruct (is_null h2); op_simpl.
    + eexists _, _, _. split; [reflexivity|]. op_simpl. split.
      * rewrite <- app_assoc. reflexivity.
      * cbn. constructor.
    + destruct (dlclose w2 h2) as [rc w3]. op_simpl.
      eexists _, _, _. split; [reflexivity|]. op_simpl. split.
      * rewrite <- !app_assoc. reflexivity.
      * cbn. constructor.
  - destruct (dlclose w1 h1) as [rc w2]. op_simpl.
    eexists _, _, _. split; [reflexivity|]. op_simpl. split.
    + rewrite <- !app_assoc. reflexivity.
    + cbn. constructor.
Qed.

Lemma canReload_returns (d : Implementation) (e : Env World) :
  exists (b : bool) (d' : Implementation) (e' : Env World),
    Implementation.canReload d e = Ret b d' e' /\
    b = can_reload (lib d') /\
    handle (lib d') = handle (lib d) /\
    path (lib d') = path (lib d) /\
    last_modified (lib d') = last_modified (lib d) /\
    symbol_cache (lib d') = symbol_cache (lib d) /\
    auto_reload d' = auto_reload d /\
    error_message d' = error_message d /\
    (handle (lib d) <> nullptr -> reload_capability_tested (lib d') = true).
Proof.
  destruct (is_null (handle (lib d)) || reload_capability_tested (lib d))
    eqn:Hc.
  - exists (can_reload (lib d)), d, e.
    split; [apply canReload_cached; exact Hc|].
    repeat split; try reflexivity.
    intros Hh. apply is_null_false in Hh. rewrite Hh in Hc. exact Hc.
  - apply orb_false_iff in Hc as [Hh Ht]. apply is_null_false in Hh.
    destruct (canReload_probes d e Hh Ht) as (b & e' & probe & Hrun & _).
    eexists _, _, _. split; [exact Hrun|]. cbn. repeat split; reflexivity.
Qed.

Lemma loadInternal_returns (d : Implementation) (e : Env World)
    (b : bool) (d' : Implementation) (e' : Env World) :
  Implementation.loadInternal d e = Ret b d' e' ->
  handle (lib d') = fst (dlopen (world e) (path (lib d)) RTLD_NOW_LOCAL) /\
  b = negb (is_null (handle (lib d'))) /\
  path (lib d') = path (lib d) /\
  last_modified (lib d') = last_modified (lib d) /\
  symbol_cache (lib d') = symbol_cache (lib d) /\
  reload_capability_tested (lib d') = reload_capability_tested (lib d) /\
  can_reload (lib d') = can_reload (lib d) /\
  auto_reload d' = auto_reload d /\
  calls e' = (calls e ++ [CallDlopen (path (lib d)) RTLD_NOW_LOCAL])%list.
Proof.
  unfold Implementation.loadInternal, Implementation.dlerror_or_unknown.
  unfold_op.
  destruct (dlopen (world e) (path (lib d)) RTLD_NOW_LOCAL) as [h w].
  op_simpl. destruct (is_null h) eqn:Hh; op_simpl.
  - destruct (dlerror w) as [[m1|] w1]; op_simpl.
    + destruct (dlerror w1) as [[m2|] w2]; op_simpl.
      * intros H; injection H as <- <- <-; cbn; rewrite Hh; tauto.
      * discriminate.
    + intros H; injection H as <- <- <-; cbn; rewrite Hh; tauto.
  - intros H; injection H as <- <- <-; cbn; rewrite Hh; tauto.
Qed.

Lemma loadInternal_success (d : Implementation) (e : Env World)
    (h : LibHandle) (w : World) :
  dlopen (world e) (path (lib d)) RTLD_NOW_LOCAL = (h, w) ->
  h <> nullptr ->
  Implementation.loadInternal d e
  = Ret true (assign_handle h d)
      (mkEnv w (calls e ++ [CallDlopen (path (lib d)) RTLD_NOW_LOCAL])).
Proof.
  intros Hopen Hh. unfold Implementation.loadInternal. unfold_op.
  rewrite Hopen. op_simpl. apply is_null_false in Hh. rewrite Hh.
  reflexivity.
Qed.

Lemma validatePath_returns (p_path : string) (d : Implementation)
    (e : Env World) :
  exists (b : bool) (d' : Implementation),
    Implementation.validatePath p_path d e = Ret b d' e /\
    lib d' = lib d /\
    auto_reload d' = auto_reload d /\
    b = negb (String.eqb p_path "") && ifstream_good (world e) p_path.
Proof.
  unfold Implementation.validatePath. unfold_op.
  destruct (String.eqb p_path ""); op_simpl.
  - eexists _, _. split; [reflexivity|]. cbn. tauto.
  - destruct (ifstream_good (world e) p_path); op_simpl;
      eexists _, _; (split; [reflexivity|]); cbn; tauto.
Qed.

Lemma reloadInternal_refused (d d1 : Implementation) (e e1 : Env World) :
  Implementation.canReload d e = Ret false d1 e1 ->
  Implementation.reloadInternal d e
  = Ret false
      (assign_error_message
         "Library cannot be reloaded - reload capability not supported" d1)
      e1.
Proof.
  intros H. unfold Implementation.reloadInternal. unfold_op. rewrite H.
  reflexivity.
Qed.

(** [reloadInternal], step by step, when it returns. *)
Lemma reloadInternal_returns (d : Implementation) (e : Env World)
    (b : bool) (d' : Implementation) (e' : Env World) :
  Implementation.reloadInternal d e = Ret b d' e' ->
  exists (able : bool) (d1 : Implementation) (e1 : Env World),
    Implementation.canReload d e = Ret able d1 e1 /\
    if able then
      exists (unloaded : bool) (d2 : Implementation) (e2 : Env World)
             (d4 : Implementation),
        Implementation.unloadInternal d1 e1 = Ret unloaded d2 e2 /\
        let e3 := mkEnv (sleep_for (world e2) 10)
                    (calls e2 ++ [CallSleep 10]) in
        let d3 :=
          assign_last_modified
            (Implementation.getFileModificationTime e3 (path (lib d1)))
            (assign_path (path (lib d1))
               (if unloaded then d2
                else assign_error_message
                       "Warning: Unload failed, attempting reload anyway"
                       d2)) in
        Implementation.loadInternal d3 e3 = Ret b d4 e' /\
        d' = (if b then d4
              else assign_error_message
                     ("Failed to reload library '" +:+ path (lib d1)
                      +:+ "': " +:+ error_message d4) d4)
    else
      b = false /\
      d' = assign_error_message
             "Library cannot be reloaded - reload capability not supported"
             d1 /\
      e' = e1.
Proof.
  unfold Implementation.reloadInternal. unfold_op.
  destruct (Implementation.canReload d e) as [able d1 e1|] eqn:Hcan;
    [|discriminate].
  intros H. exists able, d1, e1. split; [reflexivity|].
  destruct able; op_simpl.
  - destruct (Implementation.unloadInternal d1 e1) as [unloaded d2 e2|]
      eqn:Hun; [|discriminate].
    exists unloaded, d2, e2.
    destruct unloaded; op_simpl.
    + match type of H with
      | match Implementation.loadInternal ?d3 ?e3 with _ => _ end = _ =>
          destruct (Implementation.loadInternal d3 e3) as [ok d4 e4|] eqn:Hl;
            [|discriminate]
      end.
      exists d4. split; [reflexivity|].
      destruct ok; op_simpl; injection H as <- <- <-; split; try reflexivity;
        exact Hl.
    + match type of H with
      | match Implementation.loadInternal ?d3 ?e3 with _ => _ end = _ =>
          destruct (Implementation.loadInternal d3 e3) as [ok d4 e4|] eqn:Hl;
            [|discriminate]
      end.
      exists d4. split; [reflexivity|].
      destruct ok; op_simpl; injection H as <- <- <-; split; try reflexivity;
        exact Hl.
  - injection H as <- <- <-. repeat split.
Qed.

Lemma unloadInternal_returns (d : Implementation) (e : Env World)
    (b : bool) (d' : Implementation) (e' : Env World) :
  Implementation.unloadInternal d e = Ret b d' e' ->
  handle (lib d') = nullptr /\
  (handle (lib d) <> nullptr -> symbol_cache (lib d') = ∅) /\
  (handle (lib d) = nullptr -> d' = d /\ e' = e /\ b = true) /\
  path (lib d') = path (lib d) /\
  last_modified (lib d') = last_modified (lib d) /\
  reload_capability_tested (lib d') = reload_capability_tested (lib d) /\
  can_reload (lib d') = can_reload (lib d) /\
  auto_reload d' = auto_reload d.
Proof.
  intros H.
  destruct (Z.eq_dec (handle (lib d)) nullptr) as [Hn|Hn].
  - rewrite (unloadInternal_unloaded d e Hn) in H.
    injection H as <- <- <-. tauto.
  - rewrite (unloadInternal_loaded d e Hn) in H.
    apply close_and_forget_returns in H. cbn in H. tauto.
Qed.

Lemma getSymbolInternal_resolves (name : string) (d : Implementation)
    (e : Env World) :
  exists (a : Z) (d' : Implementation) (e' : Env World),
    Implementation.getSymbolInternal name d e = Ret a d' e' /\
    lib d' = lib d /\
    auto_reload d' = auto_reload d /\
    calls e' = (calls e ++ [CallDlsym (handle (lib d)) name])%list.
Proof.
  unfold Implementation.getSymbolInternal. unfold_op.
  destruct (dlerror (world e)) as [m0 w0]. op_simpl.
  destruct (dlsym w0 (handle (lib d)) name) as [a w1]. op_simpl.
  destruct (dlerror w1) as [[m|] w2]; op_simpl;
    eexists _, _, _; (split; [reflexivity|]); cbn; tauto.
Qed.

Lemma reloadInternal_keeps_invariant (d : Implementation) (e : Env World)
    (b : bool) (d' : Implementation) (e' : Env World) :
  cache_invariant d ->
  Implementation.reloadInternal d e = Ret b d' e' ->
  cache_invariant d' /\
  (b = true -> symbol_cache (lib d') = ∅ /\ handle (lib d') <> nullptr).
Proof.
  intros Hinv H.
  apply reloadInternal_returns in H as (able & d1 & e1 & Hcan & H).
  destruct (canReload_returns d e)
    as (b0 & d0 & e0 & Hcan' & _ & Hh & _ & _ & Hc & _).
  rewrite Hcan in Hcan'. injection Hcan' as <- <- <-.
  destruct able.
  - destruct H as (unloaded & d2 & e2 & d4 & Hun & Hload & ->).
    apply unloadInternal_returns in Hun
      as (Hh2 & Hc2 & Hid & _).
    assert (Hempty : symbol_cache (lib d2) = ∅).
    { destruct (Z.eq_dec (handle (lib d1)) nullptr) as [Hn|Hn].
      - destruct (Hid Hn) as (-> & _). rewrite Hc. apply Hinv. congruence.
      - auto. }
    apply loadInternal_returns in Hload
      as (_ & Hb & _ & _ & Hc4 & _).
    assert (Hc4' : symbol_cache (lib d4) = ∅)
      by (rewrite Hc4; destruct unloaded; exact Hempty).
    split.
    + intros _. destruct b; exact Hc4'.
    + intros ->. split; [exact Hc4'|].
      symmetry in Hb. apply negb_true_iff, is_null_false in Hb. exact Hb.
  - destruct H as (-> & -> & ->). split; [|discriminate].
    intros Hn. cbn in *. rewrite Hc. apply Hinv. congruence.
Qed.

(** [load], step by step, when it returns.  Skipping the unload of an
    object without a module is the same as running it. *)
Lemma load_returns (p : string) (m : AutoReload) (d : Implementation)
    (e : Env World) (b : bool) (d' : Implementation) (e' : Env World) :
  DynamicLibrary.load p m d e = Ret b d' e' ->
  exists (unloaded : bool) (d1 : Implementation) (e1 : Env World),
    Implementation.unloadInternal d e = Ret unloaded d1 e1 /\
    if negb (String.eqb p "") && ifstream_good (world e1) p then
      Implementation.loadInternal
        (assign_auto_reload m
           (assign_last_modified
              (Implementation.getFileModificationTime e1 p)
              (assign_path p d1))) e1
      = Ret b d' e'
    else
      b = false /\ lib d' = lib d1 /\ auto_reload d' = auto_reload d1 /\
      e' = e1.
Proof.
  unfold DynamicLibrary.load. unfold_op. intros H.
  destruct (is_null (handle (lib d))) eqn:Hn; op_simpl;
    [ apply is_null_true in Hn; exists true, d, e;
      split; [apply unloadInternal_unloaded; exact Hn|]
    | destruct (Implementation.unloadInternal d e) as [unloaded d1 e1|]
        eqn:Hun; [|discriminate];
      exists unloaded, d1, e1; split; [reflexivity|] ].
  all: match type of H with
       | match Implementation.validatePath _ ?dd ?ee with _ => _ end = _ =>
           destruct (validatePath_returns p dd ee)
             as (valid & d2 & Hv & Hl & Ha & ->);
           rewrite Hv in H;
           destruct (negb (String.eqb p "") && ifstream_good (world ee) p)
             eqn:Hvalid; op_simpl;
           [ replace d2 with dd in H; [exact H|];
             revert Hv; unfold Implementation.validatePath; unfold_op;
             apply andb_true_iff in Hvalid as [Hne Hgood];
             apply negb_true_iff in Hne; rewrite Hne; op_simpl;
             rewrite Hgood; op_simpl; intros Hv; congruence
           | injection H as <- <- <-; tauto ]
       end.
Qed.

Lemma load_keeps_invariant (p : string) (m : AutoReload)
    (d : Implementation) (e : Env World)
    (b : bool) (d' : Implementation) (e' : Env World) :
  cache_invariant d ->
  DynamicLibrary.load p m d e = Ret b d' e' ->
  symbol_cache (lib d') = ∅ /\
  reload_capability_tested (lib d') = reload_capability_tested (lib d) /\
  can_reload (lib d') = can_reload (lib d) /\
  (b = true -> handle (lib d') <> nullptr).
Proof.
  intros Hinv H.
  apply load_returns in H as (unloaded & d1 & e1 & Hun & H).
  apply unloadInternal_returns in Hun
    as (Hh1 & Hc1 & Hid & _ & _ & Ht1 & Hr1 & _).
  assert (Hempty : symbol_cache (lib d1) = ∅).
  { destruct (Z.eq_dec (handle (lib d)) nullptr) as [Hn|Hn].
    - destruct (Hid Hn) as (-> & _). apply Hinv, Hn.
    - auto. }
  destruct (negb (String.eqb p "") && ifstream_good (world e1) p).
  - apply loadInternal_returns in H
      as (_ & Hb & _ & _ & Hc & Ht & Hr & _).
    cbn in Hc, Ht, Hr. rewrite Hc, Ht, Hr. repeat split; auto.
    intros ->. symmetry in Hb. apply negb_true_iff, is_null_false in Hb.
    exact Hb.
  - destruct H as (-> & Hl & _ & _). rewrite Hl. repeat split; auto;
      discriminate.
Qed.

Lemma getSymbolInternal_unloaded (name : string) (d : Implementation)
    (e : Env World) :
  handle (lib d) = nullptr ->
  DynamicLibrary.getSymbolInternal name d e
  = Ret nullptr (assign_error_message "Library not loaded" d) e.
Proof.
  intros H. unfold DynamicLibrary.getSymbolInternal. unfold_op.
  apply is_null_true in H. rewrite H. reflexivity.
Qed.

Lemma getSymbolInternal_steps (name : string) (d : Implementation)
    (e : Env World) :
  handle (lib d) <> nullptr ->
  DynamicLibrary.getSymbolInternal name d e
  = if bool_decide (auto_reload d = Enabled)
       && Implementation.needsReload d e
    then
      match Implementation.reloadInternal d e with
      | Ret true d1 e1 => resolve_cached name d1 e1
      | Ret false d1 e1 => Ret nullptr d1 e1
      | Undefined => Undefined
      end
    else resolve_cached name d e.
Proof.
  intros H. apply is_null_false in H.
  assert (Htail : forall d1 e1,
    match symbol_cache (lib d1) !! name with
    | Some cached => fun d0 e0 => Ret cached d0 e0
    | None =>
        fun d0 e0 =>
          match Implementation.getSymbolInternal name d0 e0 with
          | Ret a d' e' =>
              match
                (if negb (is_null a)
                 then fun d2 e2 =>
                   Ret tt
                     (assign_symbol_cache
                        (<[name := a]> (symbol_cache (lib d2))) d2) e2
                 else fun d2 e2 => Ret tt d2 e2) d' e'
              with
              | Ret _ d'0 e'0 => Ret a d'0 e'0
              | Undefined => Undefined
              end
          | Undefined => Undefined
          end
    end d1 e1 = resolve_cached name d1 e1).
  { intros d1 e1. unfold resolve_cached. unfold_op.
    destruct (symbol_cache (lib d1) !! name); [reflexivity|].
    destruct (Implementation.getSymbolInternal name d1 e1) as [a d' e'|];
      [|reflexivity].
    unfold remember. destruct (is_null a); reflexivity. }
  unfold DynamicLibrary.getSymbolInternal. unfold_op. rewrite H.
  destruct (bool_decide (auto_reload d = Enabled)); op_simpl.
  - destruct (Implementation.needsReload d e); op_simpl.
    + destruct (Implementation.reloadInternal d e) as [[|] d1 e1|];
        op_simpl; [apply Htail | reflexivity | reflexivity].
    + apply Htail.
  - apply Htail.
Qed.

Lemma resolve_cached_hit (name : string) (a : Z) (d : Implementation)
    (e : Env World) :
  symbol_cache (lib d) !! name = Some a ->
  resolve_cached name d e = Ret a d e.
Proof.
  intros H. unfold resolve_cached. unfold_op. rewrite H. reflexivity.
Qed.

Lemma resolve_cached_miss (name : string) (d : Implementation)
    (e : Env World) :
  symbol_cache (lib d) !! name = None ->
  exists (a : Z) (d' : Implementation) (e' : Env World),
    Implementation.getSymbolInternal name d e = Ret a d' e' /\
    resolve_cached name d e = Ret a (remember name a d') e' /\
    lib d' = lib d /\
    auto_reload d' = auto_reload d /\
    calls e' = (calls e ++ [CallDlsym (handle (lib d)) name])%list.
Proof.
  intros H.
  destruct (getSymbolInternal_resolves name d e)
    as (a & d' & e' & Hres & Hl & Ha & Hc).
  exists a, d', e'. split; [exact Hres|].
  split; [|tauto].
  unfold resolve_cached. unfold_op. rewrite H, Hres. reflexivity.
Qed.

(** After [resolve_cached] a found address is in the cache. *)
Lemma resolve_cached_returns (name : string) (d : Implementation)
    (e : Env World) (a : Z) (d' : Implementation) (e' : Env World) :
  resolve_cached name d e = Ret a d' e' ->
  handle (lib d') = handle (lib d) /\
  auto_reload d' = auto_reload d /\
  path (lib d') = path (lib d) /\
  last_modified (lib d') = last_modified (lib d) /\
  reload_capability_tested (lib d') = reload_capability_tested (lib d) /\
  can_reload (lib d') = can_reload (lib d) /\
  (a <> nullptr -> symbol_cache (lib d') !! name = Some a) /\
  (symbol_cache (lib d') = symbol_cache (lib d)
   \/ symbol_cache (lib d') = <[name := a]> (symbol_cache (lib d))).
Proof.
  destruct (symbol_cache (lib d) !! name) as [c|] eqn:Hc.
  - rewrite (resolve_cached_hit name c d e Hc).
    intros H; injection H as <- <- <-. tauto.
  - destruct (resolve_cached_miss name d e Hc)
      as (a0 & d0 & e0 & _ & -> & Hl & Ha & _).
    intros H; injection H as <- <- <-.
    unfold remember. destruct (is_null a0) eqn:Hn.
    + rewrite Hl, Ha. repeat split; auto.
      intros Hne. apply is_null_true in Hn. contradiction.
    + cbn. rewrite Hl, Ha. repeat split; auto.
      intros _. apply lookup_insert_eq.
Qed.

End Steps.

Section Invariant.
Context {World : Type} {P : Platform World}.

Lemma cache_invariant_default : cache_invariant Implementation_default.
Proof. intros _. reflexivity. Qed.

Lemma perform_keeps_invariant (op : Operation) (d : Implementation)
    (e : Env World) (d' : Implementation) (e' : Env World) :
  cache_invariant d ->
  perform op d e = Ret tt d' e' ->
  cache_invariant d'.
Proof.
  intros Hinv. destruct op; cbn [perform]; unfold bind, ret.
  - (* load *)
    destruct (DynamicLibrary.load p_library_path p_auto_reload d e)
      as [b d1 e1|] eqn:H; [|discriminate].
    intros Heq; injection Heq as <- <-.
    apply (load_keeps_invariant _ _ _ _ _ _ _ Hinv) in H as (Hc & _).
    intros _. exact Hc.
  - (* unload *)
    unfold DynamicLibrary.unload.
    destruct (Implementation.unloadInternal d e) as [b d1 e1|] eqn:H;
      [|discriminate].
    intros Heq; injection Heq as <- <-.
    apply unloadInternal_returns in H as (_ & Hc & Hid & _).
    destruct (Z.eq_dec (handle (lib d)) nullptr) as [Hn|Hn].
    + destruct (Hid Hn) as (-> & _). exact Hinv.
    + intros _. auto.
  - (* reload *)
    unfold DynamicLibrary.reload. unfold_op.
    destruct (is_null (handle (lib d))); op_simpl.
    + intros Heq; injection Heq as <- <-. exact Hinv.
    + destruct (Implementation.reloadInternal d e) as [b d1 e1|] eqn:H;
        [|discriminate].
      intros Heq; injection Heq as <- <-.
      apply (reloadInternal_keeps_invariant _ _ _ _ _ Hinv H).
  - (* getSymbol *)
    destruct (Z.eq_dec (handle (lib d)) nullptr) as [Hn|Hn].
    + rewrite (getSymbolInternal_unloaded _ d e Hn).
      intros Heq; injection Heq as <- <-. exact Hinv.
    + rewrite (getSymbolInternal_steps _ d e Hn).
      destruct (bool_decide (auto_reload d = Enabled)
                && Implementation.needsReload d e).
      * destruct (Implementation.reloadInternal d e) as [[|] d1 e1|] eqn:H;
          [| |discriminate].
        -- destruct (reloadInternal_keeps_invariant _ _ _ _ _ Hinv H)
             as (_ & Hok). destruct (Hok eq_refl) as (_ & Hh).
           destruct (resolve_cached p_symbol_name d1 e1) as [a d2 e2|] eqn:Hr;
             [|discriminate].
           intros Heq; injection Heq as <- <-.
           apply resolve_cached_returns in Hr as (Hh2 & _).
           intros Hnull. congruence.
        -- intros Heq; injection Heq as <- <-.
           apply (reloadInternal_keeps_invariant _ _ _ _ _ Hinv H).
      * destruct (resolve_cached p_symbol_name d e) as [a d2 e2|] eqn:Hr;
          [|discriminate].
        intros Heq; injection Heq as <- <-.
        apply resolve_cached_returns in Hr as (Hh2 & _).
        intros Hnull. congruence.
  - (* touch *)
    unfold DynamicLibrary.touch. unfold_op.
    cbn [auto_reload assign_last_modified with_lib].
    destruct (bool_decide (auto_reload d = Enabled)); op_simpl.
    + match goal with
      | |- context [Implementation.reloadInternal ?d0 ?e0] =>
          destruct (Implementation.reloadInternal d0 e0) as [b d1 e1|] eqn:H;
            [|discriminate];
          assert (Hinv0 : cache_invariant d0) by exact Hinv
      end.
      intros Heq; injection Heq as <- <-.
      apply (reloadInternal_keeps_invariant _ _ _ _ _ Hinv0 H).
    + intros Heq; injection Heq as <- <-. exact Hinv.
  - (* canReload *)
    unfold DynamicLibrary.canReload.
    destruct (canReload_returns d e)
      as (b & d1 & e1 & -> & _ & Hh & _ & _ & Hc & _).
    intros Heq; injection Heq as <- <-.
    intros Hn. rewrite Hc. apply Hinv. congruence.
  - (* checkForUpdates *)
    unfold DynamicLibrary.checkForUpdates. unfold_op.
    intros Heq; injection Heq as <- <-. exact Hinv.
  - (* setAutoReload *)
    unfold DynamicLibrary.setAutoReload. unfold_op.
    intros Heq; injection Heq as <- <-. exact Hinv.
Qed.

(** The effects of [unloadInternal] on a loaded object, in program order:
    the write that empties the cache, then the platform close, called on
    the object with its cache already empty, then writes only.  The outcome
    is the one of [unloadInternal], undefined or not. *)
Lemma unloadInternal_effects (d : Implementation) (e : Env World) :
  handle (lib d) <> nullptr ->
  exists rest : list Effect,
    Implementation.unloadInternal_on Implementation.logged_machine d e
    = (Wrote (assign_symbol_cache ∅ d)
       :: Called (assign_symbol_cache ∅ d) (CallDlclose (handle (lib d)))
       :: rest,
       Implementation.unloadInternal d e) /\
    Forall (fun effect => exists after, effect = Wrote after) rest.
Proof.
  intros Hh. apply is_null_false in Hh.
  unfold Implementation.unloadInternal, Implementation.unloadInternal_on,
    Implementation.dlerror_or_unknown_on, Implementation.logged_machine,
    Implementation.op_machine.
  cbn [m_ret m_bind m_undefined m_self m_assign m_dlclose m_dlerror].
  unfold bind, ret, self, assign, undefined, Implementation.call_dlclose,
    Implementation.call_dlerror.
  rewrite Hh. cbn [handle lib assign_symbol_cache with_lib world calls].
  destruct (dlclose (world e) (handle (lib d))) as [rc w]. op_simpl.
  destruct (rc =? 0); op_simpl.
  - eexists. split; [reflexivity|]. repeat constructor; eauto.
  - destruct (dlerror w) as [[m1|] w1]; op_simpl.
    + destruct (dlerror w1) as [[m2|] w2]; op_simpl.
      * eexists. split; [reflexivity|]. repeat constructor; eauto.
      * eexists. split; [reflexivity|]. constructor.
    + eexists. split; [reflexivity|]. repeat constructor; eauto.
Qed.

(** C3: every operation of a handle that returns keeps the invariant that
    an object without a module has an empty symbol cache; [isLoaded] is
    true exactly when the handle is not null, and when it is false the
    cache is empty.  [unload] on a loaded object first writes the empty
    cache and only then calls the platform close, on the object with its
    cache already empty, and calls the loader no more, whether or not the
    close succeeds and even when the outcome is undefined; after an
    [unload] that returns, successful or not, the handle is null and the
    cache is empty. *)
Theorem cache_empty_whenever_handle_null :
  forall (d : Implementation) (e : Env World),
    cache_invariant d ->
    (forall (op : Operation) (d' : Implementation) (e' : Env World),
        perform op d e = Ret tt d' e' -> cache_invariant d') /\
    (exists loaded : bool,
        DynamicLibrary.isLoaded d e = Ret loaded d e /\
        (loaded = true <-> handle (lib d) <> nullptr) /\
        (loaded = false -> symbol_cache (lib d) = ∅)) /\
    (handle (lib d) <> nullptr ->
     exists rest : list Effect,
       Implementation.unloadInternal_on Implementation.logged_machine d e
       = (Wrote (assign_symbol_cache ∅ d)
          :: Called (assign_symbol_cache ∅ d)
               (CallDlclose (handle (lib d)))
          :: rest,
          DynamicLibrary.unload d e) /\
       Forall (fun effect => exists after, effect = Wrote after) rest) /\
    (forall (b : bool) (d' : Implementation) (e' : Env World),
        DynamicLibrary.unload d e = Ret b d' e' ->
        handle (lib d') = nullptr /\ symbol_cache (lib d') = ∅).
Proof.
  intros d e Hinv. split; [|split; [|split]].
  - intros op d' e'. apply perform_keeps_invariant, Hinv.
  - exists (negb (is_null (handle (lib d)))). split; [reflexivity|]. split.
    + rewrite negb_true_iff. apply is_null_false.
    + rewrite negb_false_iff. intros Hn. apply Hinv, is_null_true, Hn.
  - apply unloadInternal_effects.
  - intros b d' e' H. unfold DynamicLibrary.unload in H.
    apply unloadInternal_returns in H as (Hn & Hc & Hid & _).
    split; [exact Hn|].
    destruct (Z.eq_dec (handle (lib d)) nullptr) as [Hz|Hz].
    + destruct (Hid Hz) as (-> & _). apply Hinv, Hz.
    + auto.
Qed.

End Invariant.

(** The invariant at work: a library is loaded and a symbol cached. *)
Lemma cache_empty_whenever_handle_null_witness :
  cache_invariant (Sim.object_after Sim.resolved_add) /\
  symbol_cache (lib (Sim.object_after Sim.resolved_add)) !! "add"
  = Some 4196 /\
  (exists rest : list Effect,
      Implementation.unloadInternal_on Implementation.logged_machine
        (Sim.object_after Sim.resolved_add) (Sim.env_after Sim.resolved_add)
      = (Wrote (assign_symbol_cache ∅ (Sim.object_after Sim.resolved_add))
         :: Called
              (assign_symbol_cache ∅ (Sim.object_after Sim.resolved_add))
              (CallDlclose
                 (handle (lib (Sim.object_after Sim.resolved_add))))
         :: rest,
         DynamicLibrary.unload (Sim.object_after Sim.resolved_add)
           (Sim.env_after Sim.resolved_add)) /\
      Forall (fun effect => exists after, effect = Wrote after) rest) /\
  forall (op : Operation) (d' : Implementation) (e' : Env Sim.SimWorld),
    perform op (Sim.object_after Sim.resolved_add)
      (Sim.env_after Sim.resolved_add) = Ret tt d' e' ->
    cache_invariant d'.
Proof.
  assert (H : cache_invariant (Sim.object_after Sim.resolved_add)).
  { intros H. vm_compute in H. discriminate. }
  destruct (cache_empty_whenever_handle_null
              (Sim.object_after Sim.resolved_add)
              (Sim.env_after Sim.resolved_add) H)
    as (Hkeep & _ & Horder & _).
  split; [exact H|]. split; [vm_compute; reflexivity|].
  split; [|exact Hkeep].
  apply Horder. vm_compute. discriminate.
Defined.

Section Unload.
Context {World : Type} {P : Platform World}.

(** [unload] on an object without a module changes nothing and succeeds,
    and so does every [unload] that follows an [unload] that returned. *)
Lemma unload_after_unload (d : Implementation) (e : Env World) :
  (handle (lib d) = nullptr -> DynamicLibrary.unload d e = Ret true d e) /\
  (forall (b : bool) (d' : Implementation) (e' : Env World),
      DynamicLibrary.unload d e = Ret b d' e' ->
      DynamicLibrary.isLoaded d' e' = Ret false d' e' /\
      DynamicLibrary.unload d' e' = Ret true d' e').
Proof.
  split.
  - apply unloadInternal_unloaded.
  - intros b d' e' H. unfold DynamicLibrary.unload in H.
    apply unloadInternal_returns in H as (Hn & _).
    split.
    + unfold DynamicLibrary.isLoaded. unfold_op.
      apply is_null_true in Hn. rewrite Hn. reflexivity.
    + apply unloadInternal_unloaded, Hn.
Qed.

(** When [dlclose] reports an error and leaves no message for [dlerror],
    [unload] returns false and the handle is forgotten. *)
Lemma unload_close_error_without_message (d : Implementation)
    (e : Env World) (rc : Z) (w1 w2 : World) :
  handle (lib d) <> nullptr ->
  dlclose (world e) (handle (lib d)) = (rc, w1) ->
  rc <> 0 ->
  dlerror w1 = (None, w2) ->
  DynamicLibrary.unload d e
  = Ret false
      (assign_handle nullptr
         (assign_error_message
            ("Failed to unload library '" +:+ path (lib d) +:+ "': "
             +:+ "Unknown error")
            (assign_symbol_cache ∅ d)))
      (mkEnv w2 (calls e ++ [CallDlclose (handle (lib d))])).
Proof.
  intros Hh Hclose Hrc Herr. unfold DynamicLibrary.unload.
  rewrite (unloadInternal_loaded d e Hh).
  unfold close_and_forget, Implementation.dlerror_or_unknown. unfold_op.
  cbn [handle lib assign_symbol_cache with_lib]. rewrite Hclose. op_simpl.
  apply Z.eqb_neq in Hrc. rewrite Hrc. op_simpl. rewrite Herr. reflexivity.
Qed.

(** C6: on a loaded object, when [dlclose] reports an error and [dlerror]
    behaves as POSIX says (the message once, then null), [unload] has no
    defined outcome: the diagnostic string is built from the null pointer
    the second [dlerror] call returns, before the handle is cleared.  It
    does not return false with the handle forgotten. *)
Theorem unload_close_error_is_undefined :
  forall (d : Implementation) (e : Env World) (rc : Z) (msg : string)
         (w1 w2 w3 : World),
    handle (lib d) <> nullptr ->
    dlclose (world e) (handle (lib d)) = (rc, w1) ->
    rc <> 0 ->
    dlerror w1 = (Some msg, w2) ->
    dlerror w2 = (None, w3) ->
    DynamicLibrary.unload d e = Undefined.
Proof.
  intros d e rc msg w1 w2 w3 Hh Hclose Hrc Herr1 Herr2.
  unfold DynamicLibrary.unload.
  rewrite (unloadInternal_loaded d e Hh).
  unfold close_and_forget, Implementation.dlerror_or_unknown. unfold_op.
  cbn [handle lib assign_symbol_cache with_lib]. rewrite Hclose. op_simpl.
  apply Z.eqb_neq in Hrc. rewrite Hrc. op_simpl. rewrite Herr1. op_simpl.
  rewrite Herr2. reflexivity.
Qed.

End Unload.

(** The failing input: a loaded library whose [dlclose] returns 1. *)
Lemma unload_close_error_is_undefined_witness :
  handle (lib (Sim.object_after Sim.close_will_fail)) = 4096 /\
  DynamicLibrary.unload (Sim.object_after Sim.close_will_fail)
    (Sim.env_after Sim.close_will_fail) = Undefined.
Proof.
  split; [reflexivity|].
  eapply (unload_close_error_is_undefined
            (Sim.object_after Sim.close_will_fail)
            (Sim.env_after Sim.close_will_fail)
            1 "shared object cannot be closed").
  - vm_compute. discriminate.
  - reflexivity.
  - discriminate.
  - reflexivity.
  - reflexivity.
Defined.

Section Reload.
Context {World : Type} {P : Platform World}.

Lemma canReload_calls (d : Implementation) (e : Env World) (b : bool)
    (d1 : Implementation) (e1 : Env World) :
  Implementation.canReload d e = Ret b d1 e1 ->
  calls e1 = calls e \/
  exists probe : list LoaderCall,
    calls e1 = (calls e ++ probe)%list /\ probe_calls (path (lib d)) probe.
Proof.
  intros H.
  destruct (is_null (handle (lib d)) || reload_capability_tested (lib d))
    eqn:Hc.
  - rewrite (canReload_cached d e Hc) in H. injection H as _ _ <-.
    left. reflexivity.
  - apply orb_false_iff in Hc as [Hh Ht]. apply is_null_false in Hh.
    destruct (canReload_probes d e Hh Ht) as (b' & e' & probe & Hrun & Hc & Hp).
    rewrite Hrun in H. injection H as _ _ <-.
    right. exists probe. split; assumption.
Qed.

(** C7: [reload] on an object without a module returns false and changes
    nothing; on a loaded object it starts with the capability probe, and
    when the probe says no it returns false with the "cannot be reloaded"
    message and nothing else changed: the handle, the path, the baseline
    and the cache are as before, the object is still loaded, and the only
    loader calls made are those of the probe. *)
Theorem reload_refused_without_changes :
  forall (d : Implementation) (e : Env World),
    (handle (lib d) = nullptr -> DynamicLibrary.reload d e = Ret false d e)
    /\
    (handle (lib d) <> nullptr ->
     exists (able : bool) (d1 : Implementation) (e1 : Env World),
       Implementation.canReload d e = Ret able d1 e1 /\
       (able = false ->
        DynamicLibrary.reload d e
        = Ret false
            (assign_error_message
               "Library cannot be reloaded - reload capability not supported"
               d1) e1 /\
        handle (lib d1) = handle (lib d) /\
        path (lib d1) = path (lib d) /\
        last_modified (lib d1) = last_modified (lib d) /\
        symbol_cache (lib d1) = symbol_cache (lib d) /\
        auto_reload d1 = auto_reload d /\
        DynamicLibrary.isLoaded d1 e1 = Ret true d1 e1 /\
        (calls e1 = calls e \/
         exists probe : list LoaderCall,
           calls e1 = (calls e ++ probe)%list /\
           probe_calls (path (lib d)) probe))).
Proof.
  intros d e. split.
  - intros H. unfold DynamicLibrary.reload. unfold_op.
    apply is_null_true in H. rewrite H. reflexivity.
  - intros H.
    destruct (canReload_returns d e)
      as (able & d1 & e1 & Hcan & _ & Hh & Hp & Hl & Hc & Ha & _).
    exists able, d1, e1. split; [exact Hcan|].
    intros ->. repeat split; auto.
    + unfold DynamicLibrary.reload. unfold_op.
      pose proof H as H'. apply is_null_false in H'. rewrite H'. op_simpl.
      apply reloadInternal_refused, Hcan.
    + unfold DynamicLibrary.isLoaded. unfold_op. rewrite Hh.
      apply is_null_false in H. rewrite H. reflexivity.
    + apply (canReload_calls _ _ _ _ _ Hcan).
Qed.

End Reload.

(** A loaded library whose probe fails: [reload] refuses. *)
Lemma reload_refused_without_changes_witness :
  handle (lib (Sim.object_after Sim.probe_will_fail)) <> nullptr /\
  exists (able : bool) (d1 : Implementation) (e1 : Env Sim.SimWorld),
    Implementation.canReload (Sim.object_after Sim.probe_will_fail)
      (Sim.env_after Sim.probe_will_fail) = Ret able d1 e1 /\
    (able = false ->
     DynamicLibrary.reload (Sim.object_after Sim.probe_will_fail)
       (Sim.env_after Sim.probe_will_fail)
     = Ret false
         (assign_error_message
            "Library cannot be reloaded - reload capability not supported"
            d1) e1 /\
     handle (lib d1) = handle (lib (Sim.object_after Sim.probe_will_fail)) /\
     path (lib d1) = path (lib (Sim.object_after Sim.probe_will_fail)) /\
     last_modified (lib d1)
     = last_modified (lib (Sim.object_after Sim.probe_will_fail)) /\
     symbol_cache (lib d1)
     = symbol_cache (lib (Sim.object_after Sim.probe_will_fail)) /\
     auto_reload d1 = auto_reload (Sim.object_after Sim.probe_will_fail) /\
     DynamicLibrary.isLoaded d1 e1 = Ret true d1 e1 /\
     (calls e1 = calls (Sim.env_after Sim.probe_will_fail) \/
      exists probe : list LoaderCall,
        calls e1 = (calls (Sim.env_after Sim.probe_will_fail) ++ probe)%list
        /\
        probe_calls (path (lib (Sim.object_after Sim.probe_will_fail)))
          probe)).
Proof.
  assert (H : handle (lib (Sim.object_after Sim.probe_will_fail)) <> nullptr).
  { vm_compute. discriminate. }
  split; [exact H|].
  exact (proj2 (reload_refused_without_changes
                  (Sim.object_after Sim.probe_will_fail)
                  (Sim.env_after Sim.probe_will_fail)) H).
Defined.

Section FailedLoad.
Context {World : Type} {P : Platform World}.

(** C9: [load] on a loaded object unloads the module before it looks at
    the new path; when the unload step returns and the new path is empty or
    no stream opens on it, [load] returns false and leaves the object
    without a module: the handle is null, the cache is empty, the path is
    still the old one, and the platform close of the old handle was
    called. *)
Theorem load_invalid_path_drops_module :
  forall (p : string) (m : AutoReload) (d : Implementation) (e : Env World)
         (unloaded : bool) (d1 : Implementation) (e1 : Env World),
    handle (lib d) <> nullptr ->
    Implementation.unloadInternal d e = Ret unloaded d1 e1 ->
    p = "" \/ ifstream_good (world e1) p = false ->
    exists d' : Implementation,
      DynamicLibrary.load p m d e = Ret false d' e1 /\
      handle (lib d') = nullptr /\
      DynamicLibrary.isLoaded d' e1 = Ret false d' e1 /\
      symbol_cache (lib d') = ∅ /\
      path (lib d') = path (lib d) /\
      calls e1 = (calls e ++ [CallDlclose (handle (lib d))])%list.
Proof.
  intros p m d e unloaded d1 e1 Hh Hun Hbad.
  pose proof Hun as Hun'.
  apply unloadInternal_returns in Hun' as (Hn1 & Hc1 & _ & Hp1 & _).
  rewrite (unloadInternal_loaded d e Hh) in Hun.
  pose proof Hun as Hcalls.
  apply close_and_forget_returns in Hcalls
    as (_ & _ & _ & _ & _ & _ & _ & Hcalls & _).
  rewrite <- (unloadInternal_loaded d e Hh) in Hun.
  destruct (validatePath_returns p d1 e1) as (valid & d2 & Hv & Hl & Ha & Hvalid).
  assert (valid = false) as ->.
  { rewrite Hvalid. destruct Hbad as [-> | Hg].
    - reflexivity.
    - rewrite Hg. apply andb_false_r. }
  exists d2. split.
  - unfold DynamicLibrary.load. unfold_op.
    pose proof Hh as Hh'. apply is_null_false in Hh'. rewrite Hh'. op_simpl.
    rewrite Hun. op_simpl. rewrite Hv. reflexivity.
  - rewrite Hl. repeat split; auto.
    unfold DynamicLibrary.isLoaded. unfold_op. rewrite Hl.
    apply is_null_true in Hn1. rewrite Hn1. reflexivity.
Qed.

End FailedLoad.

(** A loaded library is asked to load a file that does not exist. *)
Lemma load_invalid_path_drops_module_witness :
  handle (lib (Sim.object_after Sim.resolved_add)) = 4096 /\
  exists d' : Implementation,
    DynamicLibrary.load "./nonexistent.so" Enabled
      (Sim.object_after Sim.resolved_add) (Sim.env_after Sim.resolved_add)
    = Ret false d'
        (mkEnv (snd (dlclose (world (Sim.env_after Sim.resolved_add)) 4096))
           (calls (Sim.env_after Sim.resolved_add) ++ [CallDlclose 4096])) /\
    handle (lib d') = nullptr /\
    DynamicLibrary.isLoaded d'
      (mkEnv (snd (dlclose (world (Sim.env_after Sim.resolved_add)) 4096))
         (calls (Sim.env_after Sim.resolved_add) ++ [CallDlclose 4096]))
    = Ret false d'
        (mkEnv (snd (dlclose (world (Sim.env_after Sim.resolved_add)) 4096))
           (calls (Sim.env_after Sim.resolved_add) ++ [CallDlclose 4096])) /\
    symbol_cache (lib d') = ∅ /\
    path (lib d') = "./libexample.so" /\
    (calls (Sim.env_after Sim.resolved_add) ++ [CallDlclose 4096])%list
    = (calls (Sim.env_after Sim.resolved_add) ++ [CallDlclose 4096])%list.
Proof.
  split; [reflexivity|].
  apply (load_invalid_path_drops_module "./nonexistent.so" Enabled
           (Sim.object_after Sim.resolved_add)
           (Sim.env_after Sim.resolved_add) true
           (assign_handle nullptr
              (assign_symbol_cache ∅ (Sim.object_after Sim.resolved_add)))
           (mkEnv
              (snd (dlclose (world (Sim.env_after Sim.resolved_add)) 4096))
              (calls (Sim.env_after Sim.resolved_add) ++ [CallDlclose 4096]))).
  - vm_compute. discriminate.
  - vm_compute. reflexivity.
  - right. reflexivity.
Defined.

Section Touch.
Context {World : Type} {P : Platform World}.

(** C10, as the code has it: on an object without a module [canReload]
    returns the stored verdict ([true] until a probe said otherwise) and
    probes nothing, and [reload] refuses; when the stored verdict is
    [true] and auto-reload is enabled, [touch] runs the reload sequence on
    the stored path (the unload is empty, then the pause and the platform
    open) and a successful open leaves the object loaded; when the stored
    verdict is [false] and auto-reload is enabled, [touch] moves the
    baseline to the current time, refuses with the message "Library cannot
    be reloaded - reload capability not supported", calls no loader and
    leaves the object unloaded. *)
Theorem touch_loads_unloaded_handle :
  forall (d : Implementation) (e : Env World),
    handle (lib d) = nullptr ->
    DynamicLibrary.canReload d e = Ret (can_reload (lib d)) d e /\
    DynamicLibrary.reload d e = Ret false d e /\
    (auto_reload d = Enabled ->
     can_reload (lib d) = true ->
     forall (h : LibHandle) (w : World),
       dlopen (sleep_for (world e) 10) (path (lib d)) RTLD_NOW_LOCAL = (h, w)
       -> h <> nullptr ->
       exists d' : Implementation,
         DynamicLibrary.touch d e
         = Ret true d'
             (mkEnv w
                (calls e ++ [CallSleep 10;
                             CallDlopen (path (lib d)) RTLD_NOW_LOCAL])) /\
         handle (lib d') = h /\
         path (lib d') = path (lib d) /\
         symbol_cache (lib d') = symbol_cache (lib d)) /\
    (auto_reload d = Enabled ->
     can_reload (lib d) = false ->
     DynamicLibrary.touch d e
     = Ret false
         (assign_error_message
            "Library cannot be reloaded - reload capability not supported"
            (assign_last_modified (system_clock_now (world e)) d)) e).
Proof.
  intros d e Hn. split; [|split; [|split]].
  - apply canReload_cached. apply is_null_true in Hn. rewrite Hn.
    reflexivity.
  - unfold DynamicLibrary.reload. unfold_op. apply is_null_true in Hn.
    rewrite Hn. reflexivity.
  - intros Ha Hv h w Hopen Hh.
    unfold DynamicLibrary.touch. unfold_op.
    cbn [auto_reload assign_last_modified with_lib].
    rewrite Ha. rewrite bool_decide_eq_true_2 by reflexivity. op_simpl.
    unfold Implementation.reloadInternal, Implementation.canReload,
      Implementation.unloadInternal, Implementation.loadInternal.
    unfold_op. cbn [handle lib can_reload reload_capability_tested path
                    assign_path assign_last_modified with_lib].
    pose proof Hn as Hn'. apply is_null_true in Hn'. rewrite Hn'. op_simpl.
    rewrite Hv. op_simpl.
    cbn [handle lib can_reload reload_capability_tested path
         assign_path assign_last_modified with_lib].
    rewrite Hn'. op_simpl.
    cbn [handle lib can_reload reload_capability_tested path
         assign_path assign_last_modified with_lib].
    rewrite Hopen. op_simpl. apply is_null_false in Hh. rewrite Hh. op_simpl.
    eexists. split.
    + rewrite <- app_assoc. reflexivity.
    + cbn. tauto.
  - intros Ha Hv.
    unfold DynamicLibrary.touch. unfold_op.
    cbn [auto_reload assign_last_modified with_lib].
    rewrite Ha. rewrite bool_decide_eq_true_2 by reflexivity. op_simpl.
    unfold Implementation.reloadInternal, Implementation.canReload.
    unfold_op. cbn [handle lib can_reload reload_capability_tested path
                    assign_path assign_last_modified with_lib].
    apply is_null_true in Hn. rewrite Hn. op_simpl.
    rewrite Hv. op_simpl. reflexivity.
Qed.

End Touch.

(** A library loaded and unloaded, never probed: [touch] loads it again. *)
Lemma touch_loads_unloaded_handle_witness :
  handle (lib (Sim.object_after Sim.loaded_then_unloaded)) = nullptr /\
  exists d' : Implementation,
    DynamicLibrary.touch (Sim.object_after Sim.loaded_then_unloaded)
      (Sim.env_after Sim.loaded_then_unloaded)
    = Ret true d'
        (mkEnv
           (snd (dlopen
              (sleep_for (world (Sim.env_after Sim.loaded_then_unloaded)) 10)
              "./libexample.so" RTLD_NOW_LOCAL))
           (calls (Sim.env_after Sim.loaded_then_unloaded)
            ++ [CallSleep 10;
                CallDlopen "./libexample.so" RTLD_NOW_LOCAL])) /\
    handle (lib d') = 4096 /\
    path (lib d') = "./libexample.so" /\
    symbol_cache (lib d') = ∅.
Proof.
  assert (H : handle (lib (Sim.object_after Sim.loaded_then_unloaded))
              = nullptr) by reflexivity.
  split; [exact H|].
  destruct (touch_loads_unloaded_handle
              (Sim.object_after Sim.loaded_then_unloaded)
              (Sim.env_after Sim.loaded_then_unloaded) H)
    as (_ & _ & Htouch & _).
  apply (Htouch eq_refl eq_refl 4096
           (snd (dlopen
              (sleep_for (world (Sim.env_after Sim.loaded_then_unloaded)) 10)
              "./libexample.so" RTLD_NOW_LOCAL))).
  - reflexivity.
  - discriminate.
Defined.

(** C10 as stated fails: after a probe with a negative verdict and an
    unload, [canReload] on the unloaded object returns false, and [touch]
    with auto-reload enabled refuses and leaves the object unloaded. *)
Lemma touch_refused_on_unloaded_handle :
  handle (lib (Sim.object_after Sim.refused_then_unloaded)) = nullptr /\
  auto_reload (Sim.object_after Sim.refused_then_unloaded) = Enabled /\
  DynamicLibrary.canReload (Sim.object_after Sim.refused_then_unloaded)
    (Sim.env_after Sim.refused_then_unloaded)
  = Ret false (Sim.object_after Sim.refused_then_unloaded)
      (Sim.env_after Sim.refused_then_unloaded) /\
  DynamicLibrary.touch (Sim.object_after Sim.refused_then_unloaded)
    (Sim.env_after Sim.refused_then_unloaded)
  = Ret false
      (assign_error_message
         "Library cannot be reloaded - reload capability not supported"
         (assign_last_modified 2000000000000
            (Sim.object_after Sim.refused_then_unloaded)))
      (Sim.env_after Sim.refused_then_unloaded) /\
  DynamicLibrary.isLoaded
    (assign_error_message
       "Library cannot be reloaded - reload capability not supported"
       (assign_last_modified 2000000000000
          (Sim.object_after Sim.refused_then_unloaded)))
    (Sim.env_after Sim.refused_then_unloaded)
  = Ret false
      (assign_error_message
         "Library cannot be reloaded - reload capability not supported"
         (assign_last_modified 2000000000000
            (Sim.object_after Sim.refused_then_unloaded)))
      (Sim.env_after Sim.refused_then_unloaded).
Proof.
  repeat split; vm_compute; reflexivity.
Qed.

Section Verdict.
Context {World : Type} {P : Platform World}.

Lemma load_keeps_verdict (p : string) (m : AutoReload) (d : Implementation)
    (e : Env World) (b : bool) (d' : Implementation) (e' : Env World) :
  DynamicLibrary.load p m d e = Ret b d' e' ->
  reload_capability_tested (lib d') = reload_capability_tested (lib d) /\
  can_reload (lib d') = can_reload (lib d).
Proof.
  intros H. apply load_returns in H as (unloaded & d1 & e1 & Hun & H).
  apply unloadInternal_returns in Hun as (_ & _ & _ & _ & _ & Ht1 & Hr1 & _).
  destruct (negb (String.eqb p "") && ifstream_good (world e1) p).
  - apply loadInternal_returns in H as (_ & _ & _ & _ & _ & Ht & Hr & _).
    cbn in Ht, Hr. split; congruence.
  - destruct H as (_ & Hl & _). rewrite Hl. split; assumption.
Qed.

Lemma reloadInternal_keeps_verdict (d : Implementation) (e : Env World)
    (b : bool) (d' : Implementation) (e' : Env World) :
  reload_capability_tested (lib d) = true ->
  Implementation.reloadInternal d e = Ret b d' e' ->
  reload_capability_tested (lib d') = true /\
  can_reload (lib d') = can_reload (lib d).
Proof.
  intros Ht H.
  apply reloadInternal_returns in H as (able & d1 & e1 & Hcan & H).
  rewrite canReload_cached in Hcan by (rewrite Ht; apply orb_true_r).
  injection Hcan as <- <- <-.
  destruct (can_reload (lib d)) eqn:Hv.
  - destruct H as (unloaded & d2 & e2 & d4 & Hun & Hload & ->).
    apply unloadInternal_returns in Hun
      as (_ & _ & _ & _ & _ & Ht2 & Hr2 & _).
    apply loadInternal_returns in Hload
      as (_ & _ & _ & _ & _ & Ht4 & Hr4 & _).
    assert (reload_capability_tested (lib d4) = true /\
            can_reload (lib d4) = true) as [Ht' Hr'].
    { rewrite Ht4, Hr4. destruct unloaded; cbn; split; congruence. }
    destruct b; cbn; split; assumption.
  - destruct H as (_ & -> & _). cbn. split; assumption.
Qed.

Lemma perform_keeps_verdict (op : Operation) (d : Implementation)
    (e : Env World) (d' : Implementation) (e' : Env World) :
  reload_capability_tested (lib d) = true ->
  perform op d e = Ret tt d' e' ->
  reload_capability_tested (lib d') = true /\
  can_reload (lib d') = can_reload (lib d).
Proof.
  intros Ht. destruct op; cbn [perform]; unfold bind, ret.
  - (* load *)
    destruct (DynamicLibrary.load p_library_path p_auto_reload d e)
      as [b d1 e1|] eqn:H; [|discriminate].
    intros Heq; injection Heq as <- <-.
    apply load_keeps_verdict in H as (H1 & H2). split; congruence.
  - (* unload *)
    unfold DynamicLibrary.unload.
    destruct (Implementation.unloadInternal d e) as [b d1 e1|] eqn:H;
      [|discriminate].
    intros Heq; injection Heq as <- <-.
    apply unloadInternal_returns in H as (_ & _ & _ & _ & _ & H1 & H2 & _).
    split; congruence.
  - (* reload *)
    unfold DynamicLibrary.reload. unfold_op.
    destruct (is_null (handle (lib d))); op_simpl.
    + intros Heq; injection Heq as <- <-. split; [exact Ht | reflexivity].
    + destruct (Implementation.reloadInternal d e) as [b d1 e1|] eqn:H;
        [|discriminate].
      intros Heq; injection Heq as <- <-.
      apply (reloadInternal_keeps_verdict _ _ _ _ _ Ht H).
  - (* getSymbol *)
    destruct (Z.eq_dec (handle (lib d)) nullptr) as [Hn|Hn].
    + rewrite (getSymbolInternal_unloaded _ d e Hn).
      intros Heq; injection Heq as <- <-. split; [exact Ht | reflexivity].
    + rewrite (getSymbolInternal_steps _ d e Hn).
      destruct (bool_decide (auto_reload d = Enabled)
                && Implementation.needsReload d e).
      * destruct (Implementation.reloadInternal d e) as [[|] d1 e1|] eqn:H;
          [| |discriminate].
        -- destruct (reloadInternal_keeps_verdict _ _ _ _ _ Ht H)
             as (Ht1 & Hr1).
           destruct (resolve_cached p_symbol_name d1 e1) as [a d2 e2|] eqn:Hr;
             [|discriminate].
           intros Heq; injection Heq as <- <-.
           apply resolve_cached_returns in Hr
             as (_ & _ & _ & _ & Ht2 & Hr2 & _).
           split; congruence.
        -- intros Heq; injection Heq as <- <-.
           apply (reloadInternal_keeps_verdict _ _ _ _ _ Ht H).
      * destruct (resolve_cached p_symbol_name d e) as [a d2 e2|] eqn:Hr;
          [|discriminate].
        intros Heq; injection Heq as <- <-.
        apply resolve_cached_returns in Hr
          as (_ & _ & _ & _ & Ht2 & Hr2 & _).
        split; congruence.
  - (* touch *)
    unfold DynamicLibrary.touch. unfold_op.
    cbn [auto_reload assign_last_modified with_lib].
    destruct (bool_decide (auto_reload d = Enabled)); op_simpl.
    + match goal with
      | |- context [Implementation.reloadInternal ?d0 ?e0] =>
          destruct (Implementation.reloadInternal d0 e0) as [b d1 e1|] eqn:H;
            [|discriminate];
          assert (Ht0 : reload_capability_tested (lib d0) = true)
            by exact Ht
      end.
      intros Heq; injection Heq as <- <-.
      apply (reloadInternal_keeps_verdict _ _ _ _ _ Ht0 H).
    + intros Heq; injection Heq as <- <-. split; [exact Ht | reflexivity].
  - (* canReload *)
    unfold DynamicLibrary.canReload.
    rewrite canReload_cached by (rewrite Ht; apply orb_true_r).
    intros Heq; injection Heq as <- <-. split; [exact Ht | reflexivity].
  - (* checkForUpdates *)
    unfold DynamicLibrary.checkForUpdates. unfold_op.
    intros Heq; injection Heq as <- <-. split; [exact Ht | reflexivity].
  - (* setAutoReload *)
    unfold DynamicLibrary.setAutoReload. unfold_op.
    intros Heq; injection Heq as <- <-. split; [exact Ht | reflexivity].
Qed.

(** C2, as the code has it: the verdict is computed at most once per
    object, not once per load.  A [canReload] on a loaded object never
    probed makes one probe of the stored path and stores the verdict with
    the mark [reload_capability_tested] set.  No operation resets the
    mark: once it is set, every operation that returns ([load], [unload],
    [reload], [getSymbol], [touch], [canReload], [checkForUpdates],
    [setAutoReload]) leaves it set and leaves the stored verdict as it
    was; so after any number of such operations, in any order, [canReload]
    returns that same verdict with no loader call.  In particular a
    successful [load] leaves the object loaded with an empty cache and
    with both verdict members as they were. *)
Theorem verdict_never_reset :
  (forall (d : Implementation) (e : Env World),
      handle (lib d) <> nullptr ->
      reload_capability_tested (lib d) = false ->
      exists (b : bool) (after : Env World) (probe : list LoaderCall),
        DynamicLibrary.canReload d e
        = Ret b (assign_can_reload b
                   (assign_reload_capability_tested true d)) after /\
        calls after = (calls e ++ probe)%list /\
        probe_calls (path (lib d)) probe) /\
  (forall (op : Operation) (d : Implementation) (e : Env World)
          (d' : Implementation) (e' : Env World),
      reload_capability_tested (lib d) = true ->
      perform op d e = Ret tt d' e' ->
      reload_capability_tested (lib d') = true /\
      can_reload (lib d') = can_reload (lib d)) /\
  (forall d d' : Implementation,
      later d d' ->
      reload_capability_tested (lib d) = true ->
      reload_capability_tested (lib d') = true /\
      can_reload (lib d') = can_reload (lib d) /\
      forall next : Env World,
        DynamicLibrary.canReload d' next = Ret (can_reload (lib d)) d' next)
  /\
  (forall (p : string) (m : AutoReload) (d : Implementation) (e : Env World)
          (d' : Implementation) (e' : Env World),
      cache_invariant d ->
      DynamicLibrary.load p m d e = Ret true d' e' ->
      symbol_cache (lib d') = ∅ /\
      handle (lib d') <> nullptr /\
      reload_capability_tested (lib d') = reload_capability_tested (lib d) /\
      can_reload (lib d') = can_reload (lib d)).
Proof.
  split; [|split; [|split]].
  - intros d e Hh Ht. apply (canReload_probes d e Hh Ht).
  - intros op d e d' e'. apply perform_keeps_verdict.
  - intros d d' Hlater Ht.
    assert (Hkept : reload_capability_tested (lib d') = true /\
                    can_reload (lib d') = can_reload (lib d)).
    { induction Hlater as [d | d d1 d2 op e e' _ IH Hstep].
      - split; [exact Ht | reflexivity].
      - destruct (IH Ht) as (Ht1 & Hr1).
        destruct (perform_keeps_verdict op d1 e d2 e' Ht1 Hstep)
          as (Ht2 & Hr2).
        split; congruence. }
    destruct Hkept as (Ht' & Hr'). split; [exact Ht'|]. split; [exact Hr'|].
    intros next. rewrite <- Hr'. unfold DynamicLibrary.canReload.
    apply canReload_cached. rewrite Ht'. apply orb_true_r.
  - intros p m d e d' e' Hinv Hload.
    destruct (load_keeps_invariant _ _ _ _ _ _ _ Hinv Hload)
      as (Hc & Ht & Hr & Hh).
    repeat split; auto.
Qed.

End Verdict.

(** libexample is loaded and probed; libgood is then loaded into the same
    object and a symbol is asked of it: the verdict of the first probe
    stays. *)
Lemma verdict_never_reset_witness :
  reload_capability_tested (lib (Sim.object_after Sim.probed_example))
  = true /\
  later (World := Sim.SimWorld) (Sim.object_after Sim.probed_example)
    (Sim.object_after Sim.probed_then_asked) /\
  path (lib (Sim.object_after Sim.probed_then_asked)) = "./libgood.so" /\
  forall next : Env Sim.SimWorld,
    DynamicLibrary.canReload (Sim.object_after Sim.probed_then_asked) next
    = Ret true (Sim.object_after Sim.probed_then_asked) next.
Proof.
  assert (Ht : reload_capability_tested
                 (lib (Sim.object_after Sim.probed_example)) = true)
    by reflexivity.
  assert (Hlater : later (World := Sim.SimWorld)
                     (Sim.object_after Sim.probed_example)
                     (Sim.object_after Sim.probed_then_asked)).
  { apply (later_step _ (Sim.object_after Sim.probed_then_loaded_good) _
             (OpGetSymbol "safe_function")
             (Sim.env_after Sim.probed_then_loaded_good)
             (Sim.env_after Sim.probed_then_asked)).
    - apply (later_step _ (Sim.object_after Sim.probed_example) _
               (OpLoad "./libgood.so" Enabled)
               (Sim.env_after Sim.probed_example)
               (Sim.env_after Sim.probed_then_loaded_good)).
      + apply later_now.
      + vm_compute. reflexivity.
    - vm_compute. reflexivity. }
  split; [exact Ht|]. split; [exact Hlater|]. split; [reflexivity|].
  destruct (@verdict_never_reset Sim.SimWorld _) as (_ & _ & Hkept & _).
  destruct (Hkept _ _ Hlater Ht) as (_ & _ & Hnext).
  exact Hnext.
Defined.

(** C2 as stated fails: an object is loaded with libexample and probed
    (verdict [true]); libgood is then loaded into it, successfully.  The
    mark is still set, and [canReload] returns [true] with no loader call,
    although a probe of libgood at that moment would say [false]. *)
Lemma load_does_not_reset_verdict :
  DynamicLibrary.load "./libgood.so" Enabled
    (Sim.object_after Sim.probed_example) (Sim.env_after Sim.probed_example)
  = Ret true (Sim.object_after Sim.probed_then_loaded_good)
      (Sim.env_after Sim.probed_then_loaded_good) /\
  reload_capability_tested
    (lib (Sim.object_after Sim.probed_then_loaded_good)) = true /\
  DynamicLibrary.canReload (Sim.object_after Sim.probed_then_loaded_good)
    (Sim.env_after Sim.probed_then_loaded_good)
  = Ret true (Sim.object_after Sim.probed_then_loaded_good)
      (Sim.env_after Sim.probed_then_loaded_good) /\
  exists after : Env Sim.SimWorld,
    DynamicLibrary.canReload
      (assign_reload_capability_tested false
         (Sim.object_after Sim.probed_then_loaded_good))
      (Sim.env_after Sim.probed_then_loaded_good)
    = Ret false
        (assign_can_reload false
           (Sim.object_after Sim.probed_then_loaded_good)) after /\
    calls after
    = (calls (Sim.env_after Sim.probed_then_loaded_good)
       ++ [CallDlopen "./libgood.so" RTLD_NOW_NOLOAD; CallDlclose 8192])%list.
Proof.
  repeat split; try (vm_compute; reflexivity).
  eexists. split; vm_compute; reflexivity.
Qed.

Section AutoReloadContract.
Context {World : Type} {P : Platform World}.

Lemma reloadInternal_reloads_once (d : Implementation) (e : Env World)
    (d' : Implementation) (e' : Env World) :
  handle (lib d) <> nullptr ->
  Implementation.reloadInternal d e = Ret true d' e' ->
  exists (dp : Implementation) (ep : Env World),
    Implementation.canReload d e = Ret true dp ep /\
    calls e'
    = (calls ep ++ [CallDlclose (handle (lib d)); CallSleep 10;
                    CallDlopen (path (lib d)) RTLD_NOW_LOCAL])%list.
Proof.
  intros Hh H.
  apply reloadInternal_returns in H as (able & d1 & e1 & Hcan & H).
  destruct (canReload_returns d e)
    as (b0 & d0 & e0 & Hcan' & _ & Hh1 & Hp1 & _).
  rewrite Hcan in Hcan'. injection Hcan' as <- <- <-.
  destruct able; [|destruct H as (H & _); discriminate].
  destruct H as (unloaded & d2 & e2 & d4 & Hun & Hload & _).
  exists d1, e1. split; [exact Hcan|].
  assert (Hh1' : handle (lib d1) <> nullptr) by congruence.
  pose proof Hun as Hun'.
  apply unloadInternal_returns in Hun' as (_ & _ & _ & Hp2 & _).
  rewrite (unloadInternal_loaded d1 e1 Hh1') in Hun.
  apply close_and_forget_returns in Hun
    as (_ & _ & _ & _ & _ & _ & _ & Hc2 & _).
  cbn [handle lib assign_symbol_cache with_lib] in Hc2.
  apply loadInternal_returns in Hload
    as (_ & _ & _ & _ & _ & _ & _ & _ & Hc4).
  rewrite Hc4. cbn [calls]. rewrite Hc2.
  replace (path (lib (assign_last_modified _ (assign_path (path (lib d1)) _))))
    with (path (lib d1)) by reflexivity.
  rewrite Hh1, Hp1, <- !app_assoc. reflexivity.
Qed.

(** The auto-reload contract for each outcome of the internal reload: on
    a loaded object whose file is newer than the baseline,
    [getSymbol] with auto-reload enabled runs the internal reload once.
    When the reload succeeds (one close of the old handle, the pause, one
    open of the same path, after the calls of the probe) the cache is
    empty, so the address returned is the one the platform resolves on the
    new handle, with one [dlsym] call; when the reload returns false,
    [getSymbol] returns null in the state the reload left, its error
    message included.  With auto-reload disabled the same call makes no
    reload: a cached address is returned with nothing changed, and a name
    not yet cached is resolved on the old handle. *)
Theorem getSymbol_auto_reload_contract :
  forall (name : string) (d : Implementation) (e : Env World),
    handle (lib d) <> nullptr ->
    Implementation.needsReload d e = true ->
    match auto_reload d with
    | Enabled =>
        match Implementation.reloadInternal d e with
        | Ret true d1 e1 =>
            symbol_cache (lib d1) = ∅ /\
            handle (lib d1) <> nullptr /\
            (exists (dp : Implementation) (ep : Env World),
                Implementation.canReload d e = Ret true dp ep /\
                calls e1
                = (calls ep ++ [CallDlclose (handle (lib d)); CallSleep 10;
                                CallDlopen (path (lib d)) RTLD_NOW_LOCAL])%list)
            /\
            exists (a : Z) (d2 : Implementation) (e2 : Env World),
              Implementation.getSymbolInternal name d1 e1 = Ret a d2 e2 /\
              calls e2 = (calls e1 ++ [CallDlsym (handle (lib d1)) name])%list
              /\
              DynamicLibrary.getSymbolInternal name d e
              = Ret a (remember name a d2) e2
        | Ret false d1 e1 =>
            DynamicLibrary.getSymbolInternal name d e = Ret nullptr d1 e1
        | Undefined => DynamicLibrary.getSymbolInternal name d e = Undefined
        end
    | Disabled =>
        match symbol_cache (lib d) !! name with
        | Some cached =>
            DynamicLibrary.getSymbolInternal name d e = Ret cached d e
        | None =>
            exists (a : Z) (d2 : Implementation) (e2 : Env World),
              Implementation.getSymbolInternal name d e = Ret a d2 e2 /\
              calls e2 = (calls e ++ [CallDlsym (handle (lib d)) name])%list
              /\
              DynamicLibrary.getSymbolInternal name d e
              = Ret a (remember name a d2) e2
        end
    end.
Proof.
  intros name d e Hh Hstale.
  rewrite (getSymbolInternal_steps name d e Hh), Hstale.
  destruct (auto_reload d) eqn:Ha.
  - rewrite bool_decide_eq_false_2 by discriminate. cbn [andb].
    destruct (symbol_cache (lib d) !! name) as [cached|] eqn:Hc.
    + apply resolve_cached_hit, Hc.
    + destruct (resolve_cached_miss name d e Hc)
        as (a & d2 & e2 & Hres & Hrun & _ & _ & Hcalls).
      exists a, d2, e2. repeat split; assumption.
  - rewrite bool_decide_eq_true_2 by reflexivity. cbn [andb].
    destruct (Implementation.reloadInternal d e) as [[|] d1 e1|] eqn:Hre;
      try reflexivity.
    assert (Hinv : cache_invariant d) by (intros Hn; contradiction).
    destruct (reloadInternal_keeps_invariant _ _ _ _ _ Hinv Hre) as (_ & Hok).
    destruct (Hok eq_refl) as (Hempty & Hh1).
    split; [exact Hempty|]. split; [exact Hh1|].
    split; [apply (reloadInternal_reloads_once _ _ _ _ Hh Hre)|].
    assert (Hc : symbol_cache (lib d1) !! name = None)
      by (rewrite Hempty; apply lookup_empty).
    destruct (resolve_cached_miss name d1 e1 Hc)
      as (a & d2 & e2 & Hres & Hrun & _ & _ & Hcalls).
    exists a, d2, e2. repeat split; assumption.
Qed.

(** C4: on a loaded object with auto-reload enabled whose file is newer
    than the baseline, when the internal reload has passed the probe and
    unloaded the module and its [dlopen] then fails, with [dlerror]
    behaving as POSIX says (the message once, then null), [getSymbol] has
    no defined outcome: [loadInternal] builds its diagnostic string from
    the null pointer the second [dlerror] call returns.  It does not
    return null with the error of the reload. *)
Theorem getSymbol_reload_dlopen_error_is_undefined :
  forall (name : string) (d : Implementation) (e : Env World)
         (d1 : Implementation) (e1 : Env World) (unloaded : bool)
         (d2 : Implementation) (e2 : Env World) (msg : string)
         (w w' w'' : World),
    handle (lib d) <> nullptr ->
    auto_reload d = Enabled ->
    Implementation.needsReload d e = true ->
    Implementation.canReload d e = Ret true d1 e1 ->
    Implementation.unloadInternal d1 e1 = Ret unloaded d2 e2 ->
    dlopen (sleep_for (world e2) 10) (path (lib d)) RTLD_NOW_LOCAL
    = (nullptr, w) ->
    dlerror w = (Some msg, w') ->
    dlerror w' = (None, w'') ->
    DynamicLibrary.getSymbolInternal name d e = Undefined.
Proof.
  intros name d e d1 e1 unloaded d2 e2 msg w w' w''
    Hh Ha Hstale Hcan Hun Hopen He1 He2.
  rewrite (getSymbolInternal_steps name d e Hh), Hstale, Ha.
  rewrite bool_decide_eq_true_2 by reflexivity. cbn [andb].
  destruct (canReload_returns d e)
    as (b0 & d0 & e0 & Hcan' & _ & _ & Hp1 & _).
  rewrite Hcan in Hcan'. injection Hcan' as _ <- <-.
  rewrite <- Hp1 in Hopen.
  assert (Hre : Implementation.reloadInternal d e = Undefined).
  { unfold Implementation.reloadInternal. unfold bind at 1. rewrite Hcan.
    cbn [negb]. unfold bind at 1. unfold self at 1.
    unfold bind at 1. rewrite Hun.
    unfold Implementation.loadInternal, Implementation.dlerror_or_unknown.
    unfold_op. destruct unloaded; op_simpl;
      cbn [path lib assign_last_modified assign_path assign_error_message
           with_lib];
      rewrite Hopen; op_simpl; cbn [is_null Z.eqb nullptr]; op_simpl;
      rewrite He1; op_simpl; rewrite He2; reflexivity. }
  rewrite Hre. reflexivity.
Qed.

End AutoReloadContract.

(** [add] was resolved at 4196 and cached; the library is rebuilt; the
    next [getSymbol] reloads and returns the address in the new module. *)
Lemma getSymbol_auto_reload_contract_witness :
  handle (lib (Sim.object_after Sim.resolved_then_rebuilt)) <> nullptr /\
  Implementation.needsReload (Sim.object_after Sim.resolved_then_rebuilt)
    (Sim.env_after Sim.resolved_then_rebuilt) = true /\
  symbol_cache (lib (Sim.object_after Sim.resolved_then_rebuilt)) !! "add"
  = Some 4196 /\
  exists (d2 : Implementation) (e2 : Env Sim.SimWorld),
    DynamicLibrary.getSymbolInternal "add"
      (Sim.object_after Sim.resolved_then_rebuilt)
      (Sim.env_after Sim.resolved_then_rebuilt)
    = Ret 12388 d2 e2.
Proof.
  assert (H1 : handle (lib (Sim.object_after Sim.resolved_then_rebuilt))
               <> nullptr).
  { vm_compute. discriminate. }
  assert (H2 : Implementation.needsReload
                 (Sim.object_after Sim.resolved_then_rebuilt)
                 (Sim.env_after Sim.resolved_then_rebuilt) = true).
  { vm_compute. reflexivity. }
  split; [exact H1|]. split; [exact H2|].
  split; [vm_compute; reflexivity|].
  pose proof (getSymbol_auto_reload_contract "add"
                (Sim.object_after Sim.resolved_then_rebuilt)
                (Sim.env_after Sim.resolved_then_rebuilt) H1 H2) as H.
  assert (Ha : auto_reload (Sim.object_after Sim.resolved_then_rebuilt)
               = Enabled) by reflexivity.
  rewrite Ha in H.
  assert (Hre :
    Implementation.reloadInternal
      (Sim.object_after Sim.resolved_then_rebuilt)
      (Sim.env_after Sim.resolved_then_rebuilt)
    = Ret true
        (Sim.object_of
           (Implementation.reloadInternal
              (Sim.object_after Sim.resolved_then_rebuilt)
              (Sim.env_after Sim.resolved_then_rebuilt)))
        (Sim.env_of
           (Implementation.reloadInternal
              (Sim.object_after Sim.resolved_then_rebuilt)
              (Sim.env_after Sim.resolved_then_rebuilt)))).
  { vm_compute. reflexivity. }
  rewrite Hre in H.
  destruct H as (_ & _ & _ & a & d2 & e2 & Hres & _ & Hget).
  assert (Ha' : a = 12388).
  { revert Hres. vm_compute. intros Hres. injection Hres as <- _ _.
    reflexivity. }
  subst a. exists (remember "add" 12388 d2), e2. exact Hget.
Defined.

(** The failing input: libexample loaded and probed, then overwritten on
    disk by something [dlopen] refuses; [add] is asked for. *)
Lemma getSymbol_reload_dlopen_error_is_undefined_witness :
  handle (lib (Sim.object_after Sim.probed_then_broken)) = 4096 /\
  auto_reload (Sim.object_after Sim.probed_then_broken) = Enabled /\
  DynamicLibrary.checkForUpdates (Sim.object_after Sim.probed_then_broken)
    (Sim.env_after Sim.probed_then_broken)
  = Ret true (Sim.object_after Sim.probed_then_broken)
      (Sim.env_after Sim.probed_then_broken) /\
  DynamicLibrary.getSymbolInternal "add"
    (Sim.object_after Sim.probed_then_broken)
    (Sim.env_after Sim.probed_then_broken) = Undefined.
Proof.
  split; [reflexivity|]. split; [reflexivity|].
  split; [vm_compute; reflexivity|].
  eapply (getSymbol_reload_dlopen_error_is_undefined "add"
            (Sim.object_after Sim.probed_then_broken)
            (Sim.env_after Sim.probed_then_broken)
            (Sim.object_after Sim.probed_then_broken)
            (Sim.env_after Sim.probed_then_broken)
            true
            (Sim.object_of
               (Implementation.unloadInternal
                  (Sim.object_after Sim.probed_then_broken)
                  (Sim.env_after Sim.probed_then_broken)))
            (Sim.env_of
               (Implementation.unloadInternal
                  (Sim.object_after Sim.probed_then_broken)
                  (Sim.env_after Sim.probed_then_broken)))
            "invalid ELF header").
  - vm_compute. discriminate.
  - reflexivity.
  - vm_compute. reflexivity.
  - vm_compute. reflexivity.
  - vm_compute. reflexivity.
  - reflexivity.
  - reflexivity.
  - reflexivity.
Defined.

Section Cache.
Context {World : Type} {P : Platform World}.

(** C5, as the code has it: [getSymbol] on an object without a module
    returns null and sets the error message "Library not loaded"; and when
    a [getSymbol] call returned an address that is not null, the next call
    for the same name, if it has no reload to make, returns the same
    address and changes nothing: no loader call, whatever happened to the
    world in between.  A name that was not found is not cached: when a
    [getSymbol] call on a loaded object, with no reload to make and the
    name absent from the cache, returned null, the module record is as
    before and the next call for the same name, if it has no reload to
    make, returns after asking the platform for the symbol again. *)
Theorem getSymbol_not_loaded_and_cache_hit :
  (forall (name : string) (d : Implementation) (e : Env World),
      handle (lib d) = nullptr ->
      DynamicLibrary.getSymbolInternal name d e
      = Ret nullptr (assign_error_message "Library not loaded" d) e) /\
  (forall (name : string) (d : Implementation) (e : Env World) (a : Z)
          (d1 : Implementation) (e1 next : Env World),
      DynamicLibrary.getSymbolInternal name d e = Ret a d1 e1 ->
      a <> nullptr ->
      no_reload_due d1 next ->
      DynamicLibrary.getSymbolInternal name d1 next = Ret a d1 next) /\
  (forall (name : string) (d : Implementation) (e : Env World)
          (d1 : Implementation) (e1 next : Env World),
      handle (lib d) <> nullptr ->
      no_reload_due d e ->
      symbol_cache (lib d) !! name = None ->
      DynamicLibrary.getSymbolInternal name d e = Ret nullptr d1 e1 ->
      no_reload_due d1 next ->
      lib d1 = lib d /\
      exists (a : Z) (d2 : Implementation) (e2 : Env World),
        DynamicLibrary.getSymbolInternal name d1 next = Ret a d2 e2 /\
        calls e2 = (calls next ++ [CallDlsym (handle (lib d)) name])%list).
Proof.
  assert (Hcond : forall (d : Implementation) (e : Env World),
             no_reload_due d e ->
             bool_decide (auto_reload d = Enabled)
             && Implementation.needsReload d e = false).
  { intros d e [Hoff | Hfresh].
    - rewrite bool_decide_eq_false_2; [reflexivity|].
      rewrite Hoff. discriminate.
    - rewrite Hfresh. apply andb_false_r. }
  split; [apply getSymbolInternal_unloaded|]. split; cycle 1.
  { intros name d e d1 e1 next Hh Hno Hmiss Hfirst Hno1.
    rewrite (getSymbolInternal_steps name d e Hh), (Hcond d e Hno)
      in Hfirst.
    destruct (resolve_cached_miss name d e Hmiss)
      as (a & d' & e' & _ & Hres & Hl & _ & _).
    rewrite Hres in Hfirst. injection Hfirst as -> Hd1 _.
    unfold remember in Hd1. cbn [is_null nullptr Z.eqb] in Hd1.
    subst d1. split; [exact Hl|].
    assert (Hh1 : handle (lib d') <> nullptr) by (rewrite Hl; exact Hh).
    assert (Hmiss1 : symbol_cache (lib d') !! name = None)
      by (rewrite Hl; exact Hmiss).
    rewrite (getSymbolInternal_steps name d' next Hh1),
      (Hcond d' next Hno1).
    destruct (resolve_cached_miss name d' next Hmiss1)
      as (a & d2 & e2 & _ & Hres2 & _ & _ & Hc2).
    exists a, (remember name a d2), e2. split; [exact Hres2|].
    rewrite Hc2, Hl. reflexivity. }
  intros name d e a d1 e1 next Hfirst Ha Hno.
  assert (Hd1 : handle (lib d1) <> nullptr /\
                symbol_cache (lib d1) !! name = Some a).
  { destruct (Z.eq_dec (handle (lib d)) nullptr) as [Hn|Hn].
    - rewrite (getSymbolInternal_unloaded name d e Hn) in Hfirst.
      injection Hfirst as <- _ _. contradiction.
    - rewrite (getSymbolInternal_steps name d e Hn) in Hfirst.
      destruct (bool_decide (auto_reload d = Enabled)
                && Implementation.needsReload d e).
      + destruct (Implementation.reloadInternal d e) as [[|] d0 e0|] eqn:Hre;
          [| |discriminate].
        * assert (Hinv : cache_invariant d) by (intros Hz; contradiction).
          destruct (reloadInternal_keeps_invariant _ _ _ _ _ Hinv Hre)
            as (_ & Hok).
          destruct (Hok eq_refl) as (_ & Hh0).
          apply resolve_cached_returns in Hfirst
            as (Hh & _ & _ & _ & _ & _ & Hc & _).
          split; [congruence | auto].
        * injection Hfirst as <- _ _. contradiction.
      + apply resolve_cached_returns in Hfirst
          as (Hh & _ & _ & _ & _ & _ & Hc & _).
        split; [congruence | auto]. }
  destruct Hd1 as (Hh1 & Hc1).
  rewrite (getSymbolInternal_steps name d1 next Hh1).
  rewrite (Hcond d1 next Hno). apply resolve_cached_hit, Hc1.
Qed.

End Cache.

(** [add] is resolved on a freshly loaded library, then asked for again. *)
Lemma getSymbol_not_loaded_and_cache_hit_witness :
  DynamicLibrary.getSymbolInternal "add" Implementation_default
    (Sim.start Sim.boot)
  = Ret nullptr
      (assign_error_message "Library not loaded" Implementation_default)
      (Sim.start Sim.boot) /\
  DynamicLibrary.getSymbolInternal "add"
    (Sim.object_after [Sim.Call (OpLoad "./libexample.so" Enabled)])
    (Sim.env_after [Sim.Call (OpLoad "./libexample.so" Enabled)])
  = Ret 4196 (Sim.object_after Sim.resolved_add)
      (Sim.env_after Sim.resolved_add) /\
  DynamicLibrary.getSymbolInternal "add" (Sim.object_after Sim.resolved_add)
    (Sim.env_after Sim.resolved_add)
  = Ret 4196 (Sim.object_after Sim.resolved_add)
      (Sim.env_after Sim.resolved_add).
Proof.
  destruct (@getSymbol_not_loaded_and_cache_hit Sim.SimWorld _)
    as (Hnot & Hhit & _).
  assert (Hfirst :
    DynamicLibrary.getSymbolInternal "add"
      (Sim.object_after [Sim.Call (OpLoad "./libexample.so" Enabled)])
      (Sim.env_after [Sim.Call (OpLoad "./libexample.so" Enabled)])
    = Ret 4196 (Sim.object_after Sim.resolved_add)
        (Sim.env_after Sim.resolved_add)).
  { vm_compute. reflexivity. }
  split; [apply Hnot; reflexivity|]. split; [exact Hfirst|].
  apply (Hhit "add" _ _ 4196 _ _ _ Hfirst).
  - discriminate.
  - right. vm_compute. reflexivity.
Defined.

(** C5 as stated fails: a name the library does not export is resolved by
    the platform again on the second of two consecutive calls, with
    auto-reload off and so no reload in between. *)
Lemma getSymbol_missing_resolved_twice :
  handle (lib (Sim.object_after Sim.asked_missing)) = 4096 /\
  auto_reload (Sim.object_after Sim.asked_missing) = Disabled /\
  DynamicLibrary.getSymbolInternal "missing"
    (Sim.object_after [Sim.Call (OpLoad "./libexample.so" Disabled)])
    (Sim.env_after [Sim.Call (OpLoad "./libexample.so" Disabled)])
  = Ret nullptr (Sim.object_after Sim.asked_missing)
      (Sim.env_after Sim.asked_missing) /\
  calls (Sim.env_after Sim.asked_missing)
  = [CallDlopen "./libexample.so" RTLD_NOW_LOCAL; CallDlsym 4096 "missing"]
  /\
  exists after : Env Sim.SimWorld,
    DynamicLibrary.getSymbolInternal "missing"
      (Sim.object_after Sim.asked_missing) (Sim.env_after Sim.asked_missing)
    = Ret nullptr (Sim.object_after Sim.asked_missing) after /\
    calls after
    = [CallDlopen "./libexample.so" RTLD_NOW_LOCAL; CallDlsym 4096 "missing";
       CallDlsym 4096 "missing"].
Proof.
  repeat split; try (vm_compute; reflexivity).
  eexists. split; vm_compute; reflexivity.
Qed.

Section Registry.
Context {World : Type} {P : Platform World}.

Lemma unique_ptr_eta (u : unique_ptr) :
  {| get := get u; pointee := pointee u |} = u.
Proof. destruct u. reflexivity. Qed.

Lemma manager_eta (m : ManagerImplementation) :
  {| m_libraries := m_libraries m |} = m.
Proof. destruct m. reflexivity. Qed.

Lemma checkAllForUpdates_loop_scans (pairs : list (string * unique_ptr))
    (m : ManagerImplementation) (e : Env World) :
  (forall (name : string) (u : unique_ptr),
      (name, u) ∈ pairs -> m_libraries m !! name = Some u) ->
  DynamicLibraryManager.checkAllForUpdates_loop pairs m e
  = Returned
      (existsb (fun pair => Implementation.needsReload (pointee pair.2) e)
         pairs) m e.
Proof.
  induction pairs as [|[name u] rest IH]; intros Hin; [reflexivity|].
  cbn [DynamicLibraryManager.checkAllForUpdates_loop existsb fst snd].
  unfold DynamicLibrary.checkForUpdates. unfold_op.
  rewrite unique_ptr_eta.
  rewrite insert_id by (apply Hin; left).
  rewrite manager_eta.
  destruct (Implementation.needsReload (pointee u) e); [reflexivity|].
  cbn [orb]. apply IH. intros name' u' Hel. apply Hin. right. exact Hel.
Qed.

(** C8: [loadLibrary] on a registered name returns the address of the
    object already there; the manager, that object and the environment stay
    as they were and the path and mode given are not looked at, so a second
    registration under a name returns the handle of the first.
    [unloadLibrary] on an unknown name changes nothing.
    [checkAllForUpdates] returns true exactly when [checkForUpdates]
    returns true on one of the registered objects, and changes neither the
    manager nor the environment (no loader call). *)
Theorem registry_first_registration_wins :
  (forall (name p_path : string) (mode : AutoReload)
          (m : ManagerImplementation) (e : Env World) (it : unique_ptr),
      m_libraries m !! name = Some it ->
      DynamicLibraryManager.loadLibrary name p_path mode m e
      = Returned (Some (get it)) m e) /\
  (forall (name path1 path2 : string) (mode1 mode2 : AutoReload)
          (m m' : ManagerImplementation) (e e' next : Env World)
          (ptr : option positive),
      DynamicLibraryManager.loadLibrary name path1 mode1 m e
      = Returned ptr m' e' ->
      DynamicLibraryManager.loadLibrary name path2 mode2 m' next
      = Returned ptr m' next) /\
  (forall (name : string) (m : ManagerImplementation) (e : Env World),
      m_libraries m !! name = None ->
      DynamicLibraryManager.unloadLibrary name m e = Returned tt m e) /\
  (forall (m : ManagerImplementation) (e : Env World),
      exists b : bool,
        DynamicLibraryManager.checkAllForUpdates m e = Returned b m e /\
        (b = true <->
         exists (name : string) (it : unique_ptr),
           m_libraries m !! name = Some it /\
           DynamicLibrary.checkForUpdates (pointee it) e
           = Ret true (pointee it) e)).
Proof.
  assert (Hhit : forall (name p_path : string) (mode : AutoReload)
                        (m : ManagerImplementation) (e : Env World)
                        (it : unique_ptr),
             m_libraries m !! name = Some it ->
             DynamicLibraryManager.loadLibrary name p_path mode m e
             = Returned (Some (get it)) m e).
  { intros name p_path mode m e it H.
    unfold DynamicLibraryManager.loadLibrary. rewrite H. reflexivity. }
  split; [exact Hhit|]. split; [|split].
  - intros name path1 path2 mode1 mode2 m m' e e' next ptr H.
    unfold DynamicLibraryManager.loadLibrary in H.
    destruct (m_libraries m !! name) as [it|] eqn:Hlook.
    + injection H as <- <- <-. apply Hhit, Hlook.
    + destruct (DynamicLibrary.DynamicLibrary_from_path path1 mode1 e)
        as [d1 e1|what e1|]; [|discriminate|discriminate].
      injection H as <- <- <-.
      apply (Hhit name path2 mode2 _ next
               (DynamicLibraryManager.make_unique m d1)).
      cbn [m_libraries]. apply lookup_insert_eq.
  - intros name m e H. unfold DynamicLibraryManager.unloadLibrary.
    rewrite delete_id by exact H. rewrite manager_eta. reflexivity.
  - intros m e.
    exists (existsb (fun pair => Implementation.needsReload (pointee pair.2) e)
              (map_to_list (m_libraries m))).
    split.
    + unfold DynamicLibraryManager.checkAllForUpdates.
      apply checkAllForUpdates_loop_scans.
      intros name u Hel. apply elem_of_map_to_list in Hel. exact Hel.
    + rewrite existsb_exists. split.
      * intros ([name it] & Hin & Hnew).
        exists name, it. split.
        -- apply elem_of_map_to_list, list_elem_of_In. exact Hin.
        -- unfold DynamicLibrary.checkForUpdates. unfold_op.
           cbn [snd] in Hnew. rewrite Hnew. reflexivity.
      * intros (name & it & Hlook & Hcheck).
        exists (name, it). split.
        -- apply list_elem_of_In, elem_of_map_to_list. exact Hlook.
        -- unfold DynamicLibrary.checkForUpdates in Hcheck. unfold_op.
           cbn [snd]. injection Hcheck as Hcheck. exact Hcheck.
Qed.

End Registry.

(** "math" is registered with libexample; a second registration of "math"
    with libgood returns the handle of the first. *)
Lemma registry_first_registration_wins_witness :
  Sim.math_registered
  = Returned (Some 1%positive) (Sim.manager_of Sim.math_registered)
      (Sim.manager_env_of Sim.math_registered) /\
  DynamicLibraryManager.loadLibrary "math" "./libgood.so" Disabled
    (Sim.manager_of Sim.math_registered)
    (Sim.manager_env_of Sim.math_registered)
  = Returned (Some 1%positive) (Sim.manager_of Sim.math_registered)
      (Sim.manager_env_of Sim.math_registered).
Proof.
  destruct (@registry_first_registration_wins Sim.SimWorld _)
    as (_ & Hsecond & _).
  assert (Hfirst :
    DynamicLibraryManager.loadLibrary "math" "./libexample.so" Enabled
      Sim.manager_empty (Sim.start Sim.boot)
    = Returned (Some 1%positive) (Sim.manager_of Sim.math_registered)
        (Sim.manager_env_of Sim.math_registered)).
  { vm_compute. reflexivity. }
  split; [exact Hfirst|].
  apply (Hsecond "math" "./libexample.so" "./libgood.so" Enabled Disabled
           _ _ _ _ _ _ Hfirst).
Defined.

(** ** Further properties of the code *)

Section Load.
Context {World : Type} {P : Platform World}.

Lemma validatePath_accepts (p : string) (d : Implementation)
    (e : Env World) :
  p <> "" ->
  ifstream_good (world e) p = true ->
  Implementation.validatePath p d e = Ret true d e.
Proof.
  intros Hne Hgood. unfold Implementation.validatePath. unfold_op.
  apply String.eqb_neq in Hne. rewrite Hne. op_simpl. rewrite Hgood.
  reflexivity.
Qed.

Lemma validatePath_rejects (p : string) (d : Implementation)
    (e : Env World) :
  p = "" \/ ifstream_good (world e) p = false ->
  Implementation.validatePath p d e
  = Ret false
      (assign_error_message
         (if String.eqb p "" then "Library path cannot be empty"
          else "Library file does not exist or is not accessible: " +:+ p)
         d) e.
Proof.
  intros Hbad. unfold Implementation.validatePath. unfold_op.
  destruct (String.eqb p "") eqn:Hp; [reflexivity|].
  destruct Hbad as [-> | Hgood]; [discriminate|].
  op_simpl. rewrite Hgood. reflexivity.
Qed.

(** [load] after its unload step, which the test on the handle skips when
    there is nothing to unload. *)
Lemma load_after_unload (p : string) (m : AutoReload) (d : Implementation)
    (e : Env World) (unloaded : bool) (d1 : Implementation) (e1 : Env World) :
  Implementation.unloadInternal d e = Ret unloaded d1 e1 ->
  DynamicLibrary.load p m d e
  = match Implementation.validatePath p d1 e1 with
    | Ret valid d2 e2 =>
        if valid then
          Implementation.loadInternal
            (assign_auto_reload m
               (assign_last_modified
                  (Implementation.getFileModificationTime e2 p)
                  (assign_path p d2))) e2
        else Ret false d2 e2
    | Undefined => Undefined
    end.
Proof.
  intros Hun. unfold DynamicLibrary.load. unfold_op.
  destruct (is_null (handle (lib d))) eqn:Hn; op_simpl.
  - apply is_null_true in Hn.
    rewrite (unloadInternal_unloaded d e Hn) in Hun.
    injection Hun as _ <- <-.
    destruct (Implementation.validatePath p d e) as [[|] d2 e2|]; reflexivity.
  - rewrite Hun. op_simpl.
    destruct (Implementation.validatePath p d1 e1) as [[|] d2 e2|];
      reflexivity.
Qed.

(** X1: a [load] of a path that is not empty, on which a stream opens and
    which [dlopen] accepts, returns true.  The object then holds the new
    handle, the path and the mode given, and the file's modification time
    read before the open as baseline; the verdict members and the error
    message are not reset, and the only loader call after the unload step
    is one [dlopen] of the path. *)
Theorem load_valid_path_loads :
  forall (p : string) (m : AutoReload) (d : Implementation) (e : Env World)
         (unloaded : bool) (d1 : Implementation) (e1 : Env World)
         (h : LibHandle) (w : World),
    Implementation.unloadInternal d e = Ret unloaded d1 e1 ->
    p <> "" ->
    ifstream_good (world e1) p = true ->
    dlopen (world e1) p RTLD_NOW_LOCAL = (h, w) ->
    h <> nullptr ->
    exists d' : Implementation,
      DynamicLibrary.load p m d e
      = Ret true d' (mkEnv w (calls e1 ++ [CallDlopen p RTLD_NOW_LOCAL])) /\
      handle (lib d') = h /\
      path (lib d') = p /\
      auto_reload d' = m /\
      last_modified (lib d') = Implementation.getFileModificationTime e1 p /\
      symbol_cache (lib d') = symbol_cache (lib d1) /\
      reload_capability_tested (lib d') = reload_capability_tested (lib d) /\
      can_reload (lib d') = can_reload (lib d) /\
      error_message d' = error_message d1 /\
      forall next : Env World,
        DynamicLibrary.isLoaded d' next = Ret true d' next.
Proof.
  intros p m d e unloaded d1 e1 h w Hun Hne Hgood Hopen Hh.
  rewrite (load_after_unload p m d e unloaded d1 e1 Hun).
  rewrite (validatePath_accepts p d1 e1 Hne Hgood).
  apply unloadInternal_returns in Hun as (_ & _ & _ & _ & _ & Ht & Hr & _).
  eexists. split.
  - apply loadInternal_success; [exact Hopen | exact Hh].
  - cbn. repeat split; auto.
    intros next. unfold DynamicLibrary.isLoaded. unfold_op. cbn.
    apply is_null_false in Hh. rewrite Hh. reflexivity.
Qed.

(** X2: a [load] on an object without a module, of an empty path or of a
    path on which no stream opens, returns false and only sets the error
    message: the path and the mode given are not stored and the loader is
    not called. *)
Theorem load_invalid_path_only_sets_message :
  forall (p : string) (m : AutoReload) (d : Implementation) (e : Env World),
    handle (lib d) = nullptr ->
    p = "" \/ ifstream_good (world e) p = false ->
    DynamicLibrary.load p m d e
    = Ret false
        (assign_error_message
           (if String.eqb p "" then "Library path cannot be empty"
            else "Library file does not exist or is not accessible: " +:+ p)
           d) e.
Proof.
  intros p m d e Hn Hbad.
  rewrite (load_after_unload p m d e true d e
             (unloadInternal_unloaded d e Hn)).
  rewrite (validatePath_rejects p d e Hbad). reflexivity.
Qed.

(** X3: when the path is valid but [dlopen] returns null and [dlerror] has
    no message, [load] returns false with the message "Failed to load
    library '<path>': Unknown error"; the object is left without a module
    but with the new path, mode and baseline already stored. *)
Theorem load_refused_without_diagnostic :
  forall (p : string) (m : AutoReload) (d : Implementation) (e : Env World)
         (unloaded : bool) (d1 : Implementation) (e1 : Env World)
         (w w' : World),
    Implementation.unloadInternal d e = Ret unloaded d1 e1 ->
    p <> "" ->
    ifstream_good (world e1) p = true ->
    dlopen (world e1) p RTLD_NOW_LOCAL = (nullptr, w) ->
    dlerror w = (None, w') ->
    exists d' : Implementation,
      DynamicLibrary.load p m d e
      = Ret false d' (mkEnv w' (calls e1 ++ [CallDlopen p RTLD_NOW_LOCAL])) /\
      handle (lib d') = nullptr /\
      path (lib d') = p /\
      auto_reload d' = m /\
      last_modified (lib d') = Implementation.getFileModificationTime e1 p /\
      error_message d'
      = "Failed to load library '" +:+ p +:+ "': " +:+ "Unknown error".
Proof.
  intros p m d e unloaded d1 e1 w w' Hun Hne Hgood Hopen Herr.
  rewrite (load_after_unload p m d e unloaded d1 e1 Hun).
  rewrite (validatePath_accepts p d1 e1 Hne Hgood).
  unfold Implementation.loadInternal, Implementation.dlerror_or_unknown.
  unfold_op. cbn [path lib assign_auto_reload assign_last_modified
                  assign_path with_lib].
  rewrite Hopen. op_simpl. cbn [is_null Z.eqb nullptr]. op_simpl.
  rewrite Herr. op_simpl.
  eexists. split; [reflexivity|]. cbn. repeat split; reflexivity.
Qed.

(** X4: when the path is valid but [dlopen] returns null and [dlerror]
    gives its message once and then null, as POSIX has it, [load] has no
    defined outcome: the diagnostic string of [loadInternal] is built from
    the null pointer of the second [dlerror] call. *)
Theorem load_refused_with_diagnostic_is_undefined :
  forall (p : string) (m : AutoReload) (d : Implementation) (e : Env World)
         (unloaded : bool) (d1 : Implementation) (e1 : Env World)
         (msg : string) (w w' w'' : World),
    Implementation.unloadInternal d e = Ret unloaded d1 e1 ->
    p <> "" ->
    ifstream_good (world e1) p = true ->
    dlopen (world e1) p RTLD_NOW_LOCAL = (nullptr, w) ->
    dlerror w = (Some msg, w') ->
    dlerror w' = (None, w'') ->
    DynamicLibrary.load p m d e = Undefined.
Proof.
  intros p m d e unloaded d1 e1 msg w w' w'' Hun Hne Hgood Hopen He1 He2.
  rewrite (load_after_unload p m d e unloaded d1 e1 Hun).
  rewrite (validatePath_accepts p d1 e1 Hne Hgood).
  unfold Implementation.loadInternal, Implementation.dlerror_or_unknown.
  unfold_op. cbn [path lib assign_auto_reload assign_last_modified
                  assign_path with_lib].
  rewrite Hopen. op_simpl. cbn [is_null Z.eqb nullptr]. op_simpl.
  rewrite He1. op_simpl. rewrite He2. reflexivity.
Qed.

End Load.

Section Construction.
Context {World : Type} {P : Platform World}.

Lemma constructor_invalid_path (p : string) (m : AutoReload)
    (e : Env World) :
  p = "" \/ ifstream_good (world e) p = false ->
  DynamicLibrary.DynamicLibrary_from_path p m e
  = Thrown
      (if String.eqb p "" then "Library path cannot be empty"
       else "Library file does not exist or is not accessible: " +:+ p) e.
Proof.
  intros Hbad. unfold DynamicLibrary.DynamicLibrary_from_path.
  rewrite (load_after_unload p m Implementation_default e true
             Implementation_default e
             (unloadInternal_unloaded Implementation_default e eq_refl)).
  rewrite (validatePath_rejects p _ e Hbad). reflexivity.
Qed.

(** X5: the constructor with a path throws for an empty path and for a
    path on which no stream opens, with the message of the validation and
    without any loader call; for a valid path that [dlopen] accepts it
    builds a loaded object with that handle, path and mode, an empty cache,
    no verdict yet and no error message. *)
Theorem constructor_throws_or_builds :
  (forall (p : string) (m : AutoReload) (e : Env World),
      p = "" \/ ifstream_good (world e) p = false ->
      DynamicLibrary.DynamicLibrary_from_path p m e
      = Thrown
          (if String.eqb p "" then "Library path cannot be empty"
           else "Library file does not exist or is not accessible: " +:+ p)
          e) /\
  (forall (p : string) (m : AutoReload) (e : Env World) (h : LibHandle)
          (w : World),
      p <> "" ->
      ifstream_good (world e) p = true ->
      dlopen (world e) p RTLD_NOW_LOCAL = (h, w) ->
      h <> nullptr ->
      exists d : Implementation,
        DynamicLibrary.DynamicLibrary_from_path p m e
        = Built d (mkEnv w (calls e ++ [CallDlopen p RTLD_NOW_LOCAL])) /\
        handle (lib d) = h /\
        path (lib d) = p /\
        auto_reload d = m /\
        symbol_cache (lib d) = ∅ /\
        reload_capability_tested (lib d) = false /\
        can_reload (lib d) = true /\
        error_message d = "").
Proof.
  split; [apply constructor_invalid_path|].
  intros p m e h w Hne Hgood Hopen Hh.
  unfold DynamicLibrary.DynamicLibrary_from_path.
  rewrite (load_after_unload p m Implementation_default e true
             Implementation_default e
             (unloadInternal_unloaded Implementation_default e eq_refl)).
  rewrite (validatePath_accepts p _ e Hne Hgood).
  match goal with
  | |- context [Implementation.loadInternal ?d3 e] =>
      rewrite (loadInternal_success d3 e h w Hopen Hh)
  end.
  eexists. split; [reflexivity|]. cbn. repeat split; reflexivity.
Qed.

(** X6: [loadLibrary] under a name not yet registered, when the
    constructor builds the object, stores it under that name at an address
    no registered object has, leaves the other names as they were, and
    [getLibrary] then returns that address. *)
Theorem loadLibrary_registers_new_name :
  forall (name p : string) (m : AutoReload) (mgr : ManagerImplementation)
         (e e' : Env World) (d : Implementation),
    m_libraries mgr !! name = None ->
    DynamicLibrary.DynamicLibrary_from_path p m e = Built d e' ->
    exists (ptr : positive) (mgr' : ManagerImplementation),
      DynamicLibraryManager.loadLibrary name p m mgr e
      = Returned (Some ptr) mgr' e' /\
      m_libraries mgr' !! name = Some {| get := ptr; pointee := d |} /\
      (forall other : string,
          other <> name ->
          m_libraries mgr' !! other = m_libraries mgr !! other) /\
      (forall (other : string) (it : unique_ptr),
          m_libraries mgr !! other = Some it -> get it <> ptr) /\
      forall next : Env World,
        DynamicLibraryManager.getLibrary name mgr' next
        = Returned (Some ptr) mgr' next.
Proof.
  intros name p m mgr e e' d Hfree Hbuilt.
  unfold DynamicLibraryManager.loadLibrary. rewrite Hfree, Hbuilt.
  eexists _, _. split; [reflexivity|]. cbn [m_libraries].
  split; [apply lookup_insert_eq|]. split; [|split].
  - intros other Hother. apply lookup_insert_ne. congruence.
  - intros other it Hit Heq.
    apply (is_fresh (DynamicLibraryManager.owned mgr)).
    cbn [DynamicLibraryManager.make_unique get] in Heq. rewrite <- Heq.
    unfold DynamicLibraryManager.owned. apply elem_of_map_to_set.
    exists other, it. split; [exact Hit | reflexivity].
  - intros next. unfold DynamicLibraryManager.getLibrary.
    cbn [m_libraries]. rewrite lookup_insert_eq. reflexivity.
Qed.

(** X7: [loadLibrary] under a name not yet registered, with an empty path
    or a path on which no stream opens, raises the constructor's exception
    with the message of the validation; the registry and the environment
    are as before, no loader call is made, and the name stays unknown. *)
Theorem loadLibrary_invalid_path_raises :
  forall (name p : string) (m : AutoReload) (mgr : ManagerImplementation)
         (e : Env World),
    m_libraries mgr !! name = None ->
    p = "" \/ ifstream_good (world e) p = false ->
    DynamicLibraryManager.loadLibrary name p m mgr e
    = Raised
        (if String.eqb p "" then "Library path cannot be empty"
         else "Library file does not exist or is not accessible: " +:+ p)
        mgr e /\
    DynamicLibraryManager.getLibrary name mgr e = Returned None mgr e.
Proof.
  intros name p m mgr e Hfree Hbad. split.
  - unfold DynamicLibraryManager.loadLibrary.
    rewrite Hfree, (constructor_invalid_path p m e Hbad). reflexivity.
  - unfold DynamicLibraryManager.getLibrary. rewrite Hfree. reflexivity.
Qed.

(** X8: [unloadLibrary] removes the name and nothing else: [getLibrary]
    of it then returns null, the other names are untouched, and the
    environment is the same, so the module of the removed handle is not
    closed.  Registering a new name and removing it gives back the
    registry there was, with the module still open. *)
Theorem unloadLibrary_forgets_without_closing :
  forall (name : string) (mgr : ManagerImplementation) (e : Env World),
    exists mgr' : ManagerImplementation,
      DynamicLibraryManager.unloadLibrary name mgr e = Returned tt mgr' e /\
      DynamicLibraryManager.getLibrary name mgr' e = Returned None mgr' e /\
      (forall other : string,
          other <> name ->
          m_libraries mgr' !! other = m_libraries mgr !! other) /\
      forall (p : string) (m : AutoReload) (before : ManagerImplementation)
             (start : Env World) (ptr : option positive),
        m_libraries before !! name = None ->
        DynamicLibraryManager.loadLibrary name p m before start
        = Returned ptr mgr e ->
        mgr' = before.
Proof.
  intros name mgr e.
  exists {| m_libraries := delete name (m_libraries mgr) |}.
  split; [reflexivity|]. split; [|split].
  - unfold DynamicLibraryManager.getLibrary. cbn [m_libraries].
    rewrite lookup_delete_eq. reflexivity.
  - intros other Hother. cbn [m_libraries]. apply lookup_delete_ne.
    congruence.
  - intros p m before start ptr Hfree Hload.
    unfold DynamicLibraryManager.loadLibrary in Hload. rewrite Hfree in Hload.
    destruct (DynamicLibrary.DynamicLibrary_from_path p m start)
      as [d e1|what e1|]; [|discriminate|discriminate].
    injection Hload as _ <- _. cbn [m_libraries].
    rewrite delete_insert_eq, delete_id by exact Hfree.
    apply manager_eta.
Qed.

End Construction.

Section Resolution.
Context {World : Type} {P : Platform World}.

Lemma no_reload_due_condition (d : Implementation) (e : Env World) :
  no_reload_due d e ->
  bool_decide (auto_reload d = Enabled) && Implementation.needsReload d e
  = false.
Proof.
  intros [Hoff | Hfresh].
  - rewrite bool_decide_eq_false_2; [reflexivity|]. rewrite Hoff.
    discriminate.
  - rewrite Hfresh. apply andb_false_r.
Qed.

(** X9: on a loaded object with no reload to make, a name not in the cache
    is looked up with one [dlsym] call; when [dlerror] reports nothing
    afterwards the address [dlsym] gave is returned, it enters the cache
    exactly when it is not null, and the error message is left as it was
    (so a null symbol comes back as null with no error recorded). *)
Theorem getSymbol_resolves_and_caches :
  forall (name : string) (d : Implementation) (e : Env World)
         (m0 : option string) (a : Z) (w0 w1 w2 : World),
    handle (lib d) <> nullptr ->
    no_reload_due d e ->
    symbol_cache (lib d) !! name = None ->
    dlerror (world e) = (m0, w0) ->
    dlsym w0 (handle (lib d)) name = (a, w1) ->
    dlerror w1 = (None, w2) ->
    DynamicLibrary.getSymbolInternal name d e
    = Ret a (remember name a d)
        (mkEnv w2 (calls e ++ [CallDlsym (handle (lib d)) name])) /\
    error_message (remember name a d) = error_message d /\
    (a <> nullptr -> symbol_cache (lib (remember name a d)) !! name = Some a)
    /\
    (a = nullptr -> remember name a d = d).
Proof.
  intros name d e m0 a w0 w1 w2 Hh Hno Hmiss He0 Hsym He1.
  split; [|split; [|split]].
  - rewrite (getSymbolInternal_steps name d e Hh).
    rewrite (no_reload_due_condition d e Hno).
    unfold resolve_cached, Implementation.getSymbolInternal. unfold_op.
    rewrite Hmiss, He0. op_simpl. rewrite Hsym. op_simpl. rewrite He1.
    reflexivity.
  - unfold remember. destruct (is_null a); reflexivity.
  - intros Ha. unfold remember. apply is_null_false in Ha. rewrite Ha.
    cbn. apply lookup_insert_eq.
  - intros ->. reflexivity.
Qed.

(** X10: in the same situation, when [dlerror] reports a message after
    the [dlsym] call, [getSymbol] returns null whatever address [dlsym]
    gave, caches nothing, and the error message names the symbol, the path
    of the module and the platform's message. *)
Theorem getSymbol_not_found_sets_message :
  forall (name : string) (d : Implementation) (e : Env World)
         (m0 : option string) (a : Z) (msg : string) (w0 w1 w2 : World),
    handle (lib d) <> nullptr ->
    no_reload_due d e ->
    symbol_cache (lib d) !! name = None ->
    dlerror (world e) = (m0, w0) ->
    dlsym w0 (handle (lib d)) name = (a, w1) ->
    dlerror w1 = (Some msg, w2) ->
    DynamicLibrary.getSymbolInternal name d e
    = Ret nullptr
        (assign_error_message
           ("Symbol '" +:+ name +:+ "' not found in library '"
            +:+ path (lib d) +:+ "': " +:+ msg) d)
        (mkEnv w2 (calls e ++ [CallDlsym (handle (lib d)) name])).
Proof.
  intros name d e m0 a msg w0 w1 w2 Hh Hno Hmiss He0 Hsym He1.
  rewrite (getSymbolInternal_steps name d e Hh).
  rewrite (no_reload_due_condition d e Hno).
  unfold resolve_cached, Implementation.getSymbolInternal. unfold_op.
  rewrite Hmiss, He0. op_simpl. rewrite Hsym. op_simpl. rewrite He1.
  reflexivity.
Qed.

(** X11: with auto-reload disabled, or with a file not newer than the
    baseline, [getSymbol] on a loaded object always returns; it keeps the
    handle, the path, the baseline, the verdict and the mode, keeps every
    address already cached, and calls the loader at most once, for a
    [dlsym] of the name on the current handle. *)
Theorem getSymbol_without_reload_keeps_module :
  forall (name : string) (d : Implementation) (e : Env World),
    handle (lib d) <> nullptr ->
    no_reload_due d e ->
    exists (a : Z) (d' : Implementation) (e' : Env World),
      DynamicLibrary.getSymbolInternal name d e = Ret a d' e' /\
      handle (lib d') = handle (lib d) /\
      path (lib d') = path (lib d) /\
      last_modified (lib d') = last_modified (lib d) /\
      reload_capability_tested (lib d') = reload_capability_tested (lib d) /\
      can_reload (lib d') = can_reload (lib d) /\
      auto_reload d' = auto_reload d /\
      (forall (other : string) (cached : Z),
          symbol_cache (lib d) !! other = Some cached ->
          symbol_cache (lib d') !! other = Some cached) /\
      (calls e' = calls e \/
       calls e' = (calls e ++ [CallDlsym (handle (lib d)) name])%list).
Proof.
  intros name d e Hh Hno.
  rewrite (getSymbolInternal_steps name d e Hh).
  rewrite (no_reload_due_condition d e Hno).
  destruct (symbol_cache (lib d) !! name) as [c|] eqn:Hc.
  - exists c, d, e. rewrite (resolve_cached_hit name c d e Hc).
    repeat split; auto.
  - destruct (resolve_cached_miss name d e Hc)
      as (a & d0 & e0 & _ & Hrun & Hl & Ha & Hcalls).
    exists a, (remember name a d0), e0. split; [exact Hrun|].
    pose proof Hrun as Hret.
    apply resolve_cached_returns in Hret
      as (H1 & H2 & H3 & H4 & H5 & H6 & _ & Hcache).
    repeat split; auto.
    intros other cached Hother.
    destruct Hcache as [-> | ->]; [exact Hother|].
    rewrite lookup_insert_ne; [exact Hother|].
    intros <-. rewrite Hc in Hother. discriminate.
Qed.

End Resolution.

Section Baseline.
Context {World : Type} {P : Platform World}.

Lemma from_time_t_in_range (t : Z) :
  -9223372036 <= t <= 9223372036 ->
  Implementation.from_time_t t = t * 1000000000.
Proof.
  intros Ht. unfold Implementation.from_time_t, wrap_int64.
  rewrite Z.mod_small by lia. lia.
Qed.

Lemma from_time_t_gtb (t t' : Z) :
  -9223372036 <= t <= 9223372036 ->
  -9223372036 <= t' <= 9223372036 ->
  (Implementation.from_time_t t' >? Implementation.from_time_t t)
  = (t' >? t).
Proof.
  intros Ht Ht'. rewrite !from_time_t_in_range by assumption.
  rewrite !Z.gtb_ltb.
  destruct (Z.ltb_spec t t'), (Z.ltb_spec (t * 1000000000) (t' * 1000000000));
    try reflexivity; lia.
Qed.

(** X12: after a successful [load] of a file whose modification time was
    [t] seconds when it was loaded, [checkForUpdates] answers by seconds as
    long as the times are within the 9223372036 seconds whose nanosecond
    count fits 64 bits: whenever [stat] gives such a [t'] for the path, it
    returns whether [t' > t].  So it is false as long as the file is as it
    was, and true once its modification time has moved to a later
    second. *)
Theorem checkForUpdates_after_load :
  forall (p : string) (m : AutoReload) (d : Implementation) (e : Env World)
         (unloaded : bool) (d1 : Implementation) (e1 : Env World)
         (d' : Implementation) (e' : Env World) (t : Z),
    Implementation.unloadInternal d e = Ret unloaded d1 e1 ->
    DynamicLibrary.load p m d e = Ret true d' e' ->
    stat_mtime (world e1) p = Some t ->
    -9223372036 <= t <= 9223372036 ->
    forall (next : Env World) (t' : Z),
      stat_mtime (world next) p = Some t' ->
      -9223372036 <= t' <= 9223372036 ->
      DynamicLibrary.checkForUpdates d' next = Ret (t' >? t) d' next.
Proof.
  intros p m d e unloaded d1 e1 d' e' t Hun Hload Hstat Ht next t' Hstat' Ht'.
  rewrite (load_after_unload p m d e unloaded d1 e1 Hun) in Hload.
  destruct (validatePath_returns p d1 e1) as (valid & d2 & Hv & _).
  rewrite Hv in Hload. destruct valid; [|discriminate].
  apply loadInternal_returns in Hload as (_ & _ & Hp & Hl & _).
  cbn in Hp, Hl.
  unfold DynamicLibrary.checkForUpdates. unfold_op.
  unfold Implementation.needsReload, Implementation.getFileModificationTime
    in *.
  rewrite Hp, Hl, Hstat', Hstat.
  rewrite (from_time_t_gtb t t' Ht Ht'). reflexivity.
Qed.


End Baseline.

Section ReloadSequence.
Context {World : Type} {P : Platform World}.

Lemma loadInternal_failure_message (d : Implementation) (e : Env World)
    (d' : Implementation) (e' : Env World) :
  Implementation.loadInternal d e = Ret false d' e' ->
  handle (lib d') = nullptr /\
  symbol_cache (lib d') = symbol_cache (lib d) /\
  exists diagnostic : string,
    error_message d'
    = "Failed to load library '" +:+ path (lib d) +:+ "': " +:+ diagnostic.
Proof.
  unfold Implementation.loadInternal, Implementation.dlerror_or_unknown.
  unfold_op.
  destruct (dlopen (world e) (path (lib d)) RTLD_NOW_LOCAL) as [h w].
  op_simpl. destruct (is_null h) eqn:Hh; op_simpl; [|discriminate].
  apply is_null_true in Hh. subst h.
  destruct (dlerror w) as [[m1|] w1]; op_simpl.
  - destruct (dlerror w1) as [[m2|] w2]; op_simpl; [|discriminate].
    intros H; injection H as <- <-. cbn. eauto.
  - intros H; injection H as <- <-. cbn. eauto.
Qed.

Lemma reload_is_reloadInternal (d : Implementation) (e : Env World) :
  handle (lib d) <> nullptr ->
  DynamicLibrary.reload d e = Implementation.reloadInternal d e.
Proof.
  intros Hh. unfold DynamicLibrary.reload. unfold_op.
  apply is_null_false in Hh. rewrite Hh. reflexivity.
Qed.

Lemma reload_true_loaded (d : Implementation) (e : Env World)
    (d' : Implementation) (e' : Env World) :
  DynamicLibrary.reload d e = Ret true d' e' -> handle (lib d) <> nullptr.
Proof.
  unfold DynamicLibrary.reload. unfold_op.
  destruct (is_null (handle (lib d))) eqn:Hn; op_simpl; [discriminate|].
  intros _. apply is_null_false, Hn.
Qed.

(** X14: a [reload] that returns true ran the sequence whether or not the
    file had changed: after the calls of the probe, one [dlclose] of the
    old handle, the pause and one [dlopen] of the same path.  The object
    is loaded from the same path in the same mode and its symbol cache is
    empty, so the next [getSymbol] of any name, with no further reload to
    make, asks the platform with one [dlsym] on the new handle. *)
Theorem reload_success_drops_cache :
  forall (d : Implementation) (e : Env World)
         (d' : Implementation) (e' : Env World),
    DynamicLibrary.reload d e = Ret true d' e' ->
    handle (lib d') <> nullptr /\
    symbol_cache (lib d') = ∅ /\
    path (lib d') = path (lib d) /\
    auto_reload d' = auto_reload d /\
    (exists (dp : Implementation) (ep : Env World),
        Implementation.canReload d e = Ret true dp ep /\
        calls e'
        = (calls ep ++ [CallDlclose (handle (lib d)); CallSleep 10;
                        CallDlopen (path (lib d)) RTLD_NOW_LOCAL])%list) /\
    forall (name : string) (next : Env World),
      no_reload_due d' next ->
      exists (a : Z) (d2 : Implementation) (e2 : Env World),
        DynamicLibrary.getSymbolInternal name d' next = Ret a d2 e2 /\
        calls e2 = (calls next ++ [CallDlsym (handle (lib d')) name])%list.
Proof.
  intros d e d' e' H.
  pose proof (reload_true_loaded d e d' e' H) as Hh.
  rewrite (reload_is_reloadInternal d e Hh) in H.
  assert (Hinv : cache_invariant d) by (intros Hz; contradiction).
  destruct (reloadInternal_keeps_invariant _ _ _ _ _ Hinv H) as (_ & Hok).
  destruct (Hok eq_refl) as (Hempty & Hh').
  split; [exact Hh'|]. split; [exact Hempty|].
  assert (Hframe : path (lib d') = path (lib d) /\
                   auto_reload d' = auto_reload d).
  { pose proof H as H0.
    apply reloadInternal_returns in H0 as (able & d1 & e1 & Hcan & H0).
    destruct (canReload_returns d e)
      as (b0 & d0 & e0 & Hcan' & _ & _ & Hp1 & _ & _ & Ha1 & _).
    rewrite Hcan in Hcan'. injection Hcan' as <- <- <-.
    destruct able; [|destruct H0 as (H0 & _); discriminate].
    destruct H0 as (unloaded & d2 & e2 & d4 & Hun & Hload & ->).
    apply unloadInternal_returns in Hun as (_ & _ & _ & _ & _ & _ & _ & Ha2).
    apply loadInternal_returns in Hload
      as (_ & _ & Hp4 & _ & _ & _ & _ & Ha4 & _).
    cbn in Hp4. rewrite Hp4, Ha4, <- Hp1, <- Ha1.
    destruct unloaded; cbn; auto. }
  destruct Hframe as (Hp & Ha). split; [exact Hp|]. split; [exact Ha|].
  split; [apply (reloadInternal_reloads_once _ _ _ _ Hh H)|].
  intros name next Hno.
  rewrite (getSymbolInternal_steps name d' next Hh').
  rewrite (no_reload_due_condition d' next Hno).
  assert (Hmiss : symbol_cache (lib d') !! name = None)
    by (rewrite Hempty; apply lookup_empty).
  destruct (resolve_cached_miss name d' next Hmiss)
    as (a & d2 & e2 & _ & Hrun & _ & _ & Hcalls).
  exists a, (remember name a d2), e2. split; assumption.
Qed.

(** X15: when a [reload] has passed the probe and unloaded the module,
    and its [dlopen] after the pause returns null while [dlerror] has no
    message, [reload] returns false and the module is lost: the handle is
    null, the cache is empty, the error message nests the one of the failed
    load, "Failed to reload library '<path>': Failed to load library
    '<path>': Unknown error", and a [getSymbol] after it fails with
    "Library not loaded". *)
Theorem reload_failure_leaves_unloaded :
  forall (d : Implementation) (e : Env World)
         (d1 : Implementation) (e1 : Env World) (unloaded : bool)
         (d2 : Implementation) (e2 : Env World) (w w' : World),
    handle (lib d) <> nullptr ->
    Implementation.canReload d e = Ret true d1 e1 ->
    Implementation.unloadInternal d1 e1 = Ret unloaded d2 e2 ->
    dlopen (sleep_for (world e2) 10) (path (lib d)) RTLD_NOW_LOCAL
    = (nullptr, w) ->
    dlerror w = (None, w') ->
    exists d' : Implementation,
      DynamicLibrary.reload d e
      = Ret false d'
          (mkEnv w'
             (calls e2 ++ [CallSleep 10;
                           CallDlopen (path (lib d)) RTLD_NOW_LOCAL])) /\
      handle (lib d') = nullptr /\
      symbol_cache (lib d') = ∅ /\
      error_message d'
      = "Failed to reload library '" +:+ path (lib d) +:+ "': "
        +:+ ("Failed to load library '" +:+ path (lib d) +:+ "': "
             +:+ "Unknown error") /\
      forall (name : string) (next : Env World),
        DynamicLibrary.getSymbolInternal name d' next
        = Ret nullptr (assign_error_message "Library not loaded" d') next.
Proof.
  intros d e d1 e1 unloaded d2 e2 w w' Hh Hcan Hun Hopen Herr.
  rewrite (reload_is_reloadInternal d e Hh).
  destruct (canReload_returns d e)
    as (b0 & d0 & e0 & Hcan' & _ & Hh1 & Hp1 & _).
  rewrite Hcan in Hcan'. injection Hcan' as _ <- <-.
  rewrite <- Hp1 in Hopen |- *.
  assert (Hh1' : handle (lib d1) <> nullptr) by congruence.
  pose proof Hun as Hun'.
  apply unloadInternal_returns in Hun' as (_ & Hc2 & _).
  specialize (Hc2 Hh1').
  unfold Implementation.reloadInternal. unfold bind at 1. rewrite Hcan.
  cbn [negb]. unfold bind at 1. unfold self at 1.
  unfold bind at 1. rewrite Hun.
  unfold Implementation.loadInternal, Implementation.dlerror_or_unknown.
  unfold_op.
  destruct unloaded; op_simpl;
    cbn [path lib assign_last_modified assign_path assign_error_message
         with_lib];
    rewrite Hopen; op_simpl; cbn [is_null Z.eqb nullptr]; op_simpl;
    rewrite Herr; op_simpl;
    (eexists; split;
     [rewrite <- app_assoc; reflexivity
     | split; [reflexivity|]; split; [exact Hc2|];
       split; [reflexivity|];
       intros name next; apply getSymbolInternal_unloaded; reflexivity]).
Qed.

(** X16: [reload] goes on when the unload fails: when [dlclose] of the
    handle reports an error without a message for [dlerror] and the
    [dlopen] after the pause succeeds, [reload] returns true, the object
    holds the new handle with an empty cache, and the error message is
    left at "Warning: Unload failed, attempting reload anyway". *)
Theorem reload_continues_after_failed_unload :
  forall (d : Implementation) (e : Env World)
         (d1 : Implementation) (e1 : Env World)
         (rc : Z) (h' : LibHandle) (w1 w2 w3 : World),
    handle (lib d) <> nullptr ->
    Implementation.canReload d e = Ret true d1 e1 ->
    dlclose (world e1) (handle (lib d)) = (rc, w1) ->
    rc <> 0 ->
    dlerror w1 = (None, w2) ->
    dlopen (sleep_for w2 10) (path (lib d)) RTLD_NOW_LOCAL = (h', w3) ->
    h' <> nullptr ->
    exists d' : Implementation,
      DynamicLibrary.reload d e
      = Ret true d'
          (mkEnv w3
             (calls e1 ++ [CallDlclose (handle (lib d)); CallSleep 10;
                           CallDlopen (path (lib d)) RTLD_NOW_LOCAL])) /\
      handle (lib d') = h' /\
      symbol_cache (lib d') = ∅ /\
      path (lib d') = path (lib d) /\
      error_message d' = "Warning: Unload failed, attempting reload anyway".
Proof.
  intros d e d1 e1 rc h' w1 w2 w3 Hh Hcan Hclose Hrc Herr Hopen Hh'.
  rewrite (reload_is_reloadInternal d e Hh).
  destruct (canReload_returns d e)
    as (b0 & d0 & e0 & Hcan' & _ & Hh1 & Hp1 & _).
  rewrite Hcan in Hcan'. injection Hcan' as _ <- <-.
  rewrite <- Hh1 in Hclose, Hh |- *. rewrite <- Hp1 in Hopen |- *.
  unfold Implementation.reloadInternal. unfold_op. rewrite Hcan. op_simpl.
  change (Implementation.unloadInternal d1 e1)
    with (DynamicLibrary.unload d1 e1).
  rewrite (unload_close_error_without_message d1 e1 rc w1 w2
             Hh Hclose Hrc Herr).
  op_simpl.
  match goal with
  | |- context [Implementation.loadInternal ?d3 ?e3] =>
      rewrite (loadInternal_success d3 e3 h' w3 Hopen Hh')
  end.
  op_simpl. eexists. split.
  - rewrite <- !app_assoc. reflexivity.
  - cbn. repeat split; reflexivity.
Qed.

End ReloadSequence.

Section Probe.
Context {World : Type} {P : Platform World}.

(** X17: [canReload] always returns, and what it returns is the verdict
    the object then stores.  It writes nothing but the two verdict
    members: the handle, the path, the baseline, the cache, the mode and
    the error message are as before, even when the probe fails.  Its
    loader calls, if any, are those of one probe of the stored path, and
    asked again on a loaded object it gives the same answer with no loader
    call. *)
Theorem canReload_only_writes_verdict :
  forall (d : Implementation) (e : Env World),
    exists (b : bool) (d' : Implementation) (e' : Env World),
      DynamicLibrary.canReload d e = Ret b d' e' /\
      b = can_reload (lib d') /\
      handle (lib d') = handle (lib d) /\
      path (lib d') = path (lib d) /\
      last_modified (lib d') = last_modified (lib d) /\
      symbol_cache (lib d') = symbol_cache (lib d) /\
      auto_reload d' = auto_reload d /\
      error_message d' = error_message d /\
      (calls e' = calls e \/
       exists probe : list LoaderCall,
         calls e' = (calls e ++ probe)%list /\
         probe_calls (path (lib d)) probe) /\
      (handle (lib d) <> nullptr ->
       forall next : Env World,
         DynamicLibrary.canReload d' next = Ret b d' next).
Proof.
  intros d e. unfold DynamicLibrary.canReload.
  destruct (canReload_returns d e)
    as (b & d' & e' & Hcan & Hb & Hh & Hp & Hl & Hc & Ha & Hm & Ht).
  exists b, d', e'. repeat split; auto.
  - apply (canReload_calls _ _ _ _ _ Hcan).
  - intros Hloaded next. rewrite Hb. apply canReload_cached.
    rewrite (Ht Hloaded). apply orb_true_r.
Qed.

(** X18: after an [unload] that returned, whatever it returned, the
    object answers like one never loaded: [getSymbol] of any name fails
    with "Library not loaded", [reload] returns false and changes nothing,
    and [canReload] returns the stored verdict without a loader call. *)
Theorem operations_after_unload :
  forall (d : Implementation) (e : Env World) (b : bool)
         (d' : Implementation) (e' : Env World),
    DynamicLibrary.unload d e = Ret b d' e' ->
    forall (name : string) (next : Env World),
      DynamicLibrary.getSymbolInternal name d' next
      = Ret nullptr (assign_error_message "Library not loaded" d') next /\
      DynamicLibrary.reload d' next = Ret false d' next /\
      DynamicLibrary.canReload d' next = Ret (can_reload (lib d)) d' next.
Proof.
  intros d e b d' e' Hun name next.
  unfold DynamicLibrary.unload in Hun.
  apply unloadInternal_returns in Hun as (Hn & _ & _ & _ & _ & _ & Hr & _).
  split; [apply getSymbolInternal_unloaded, Hn|]. split.
  - unfold DynamicLibrary.reload. unfold_op.
    apply is_null_true in Hn. rewrite Hn. reflexivity.
  - rewrite <- Hr. apply canReload_cached.
    apply is_null_true in Hn. rewrite Hn. reflexivity.
Qed.

(** X19: the demo's [testLibraryUnloadability] returns false, with no
    loader call, for an empty path and for a path on which no stream
    opens; for a valid path that [dlopen] accepts it returns a verdict
    after one [dlopen] of the path followed by the calls of one probe, and
    nothing more: the handle it loaded is not closed when the local object
    goes away. *)
Theorem testLibraryUnloadability_probes_once :
  (forall (p : string) (e : Env World),
      p = "" \/ ifstream_good (world e) p = false ->
      Demo.testLibraryUnloadability p e = Some (false, e)) /\
  (forall (p : string) (e : Env World) (h : LibHandle) (w : World),
      p <> "" ->
      ifstream_good (world e) p = true ->
      dlopen (world e) p RTLD_NOW_LOCAL = (h, w) ->
      h <> nullptr ->
      exists (verdict : bool) (e' : Env World) (probe : list LoaderCall),
        Demo.testLibraryUnloadability p e = Some (verdict, e') /\
        calls e'
        = (calls e ++ CallDlopen p RTLD_NOW_LOCAL :: probe)%list /\
        probe_calls p probe).
Proof.
  split.
  - intros p e Hbad. unfold Demo.testLibraryUnloadability.
    unfold DynamicLibrary.DynamicLibrary_from_path.
    rewrite (load_after_unload p Enabled Implementation_default e true
               Implementation_default e
               (unloadInternal_unloaded Implementation_default e eq_refl)).
    rewrite (validatePath_rejects p _ e Hbad). reflexivity.
  - intros p e h w Hne Hgood Hopen Hh.
    unfold Demo.testLibraryUnloadability.
    unfold DynamicLibrary.DynamicLibrary_from_path.
    rewrite (load_after_unload p Enabled Implementation_default e true
               Implementation_default e
               (unloadInternal_unloaded Implementation_default e eq_refl)).
    rewrite (validatePath_accepts p _ e Hne Hgood).
    match goal with
    | |- context [Implementation.loadInternal ?d3 e] =>
        rewrite (loadInternal_success d3 e h w Hopen Hh)
    end.
    unfold DynamicLibrary.canReload.
    match goal with
    | |- context [Implementation.canReload ?d4 ?e4] =>
        destruct (canReload_probes d4 e4 Hh eq_refl)
          as (b & e' & probe & Hrun & Hcalls & Hprobe); rewrite Hrun
    end.
    exists b, e', probe. split; [reflexivity|]. split.
    + rewrite Hcalls. cbn [calls]. rewrite <- app_assoc. reflexivity.
    + exact Hprobe.
Qed.

End Probe.

(** ** The further properties on concrete runs *)

(** libexample is loaded into a fresh object. *)
Lemma load_valid_path_loads_witness :
  exists (d' : Implementation) (e' : Env Sim.SimWorld),
    DynamicLibrary.load "./libexample.so" Disabled Implementation_default
      (Sim.start Sim.boot) = Ret true d' e' /\
    handle (lib d') = 4096 /\
    last_modified (lib d') = 1000000000000 /\
    calls e' = [CallDlopen "./libexample.so" RTLD_NOW_LOCAL].
Proof.
  destruct (load_valid_path_loads "./libexample.so" Disabled
              Implementation_default (Sim.start Sim.boot) true
              Implementation_default (Sim.start Sim.boot) 4096
              (snd (dlopen Sim.boot "./libexample.so" RTLD_NOW_LOCAL)))
    as (d' & Hload & Hh & _ & _ & Hl & _).
  - reflexivity.
  - discriminate.
  - reflexivity.
  - reflexivity.
  - discriminate.
  - exists d'. eexists. split; [exact Hload|]. split; [exact Hh|].
    split; [exact Hl | reflexivity].
Defined.

(** A file that does not exist is asked of a fresh object. *)
Lemma load_invalid_path_only_sets_message_witness :
  DynamicLibrary.load "./nonexistent.so" Enabled Implementation_default
    (Sim.start Sim.boot)
  = Ret false
      (assign_error_message
         "Library file does not exist or is not accessible: ./nonexistent.so"
         Implementation_default)
      (Sim.start Sim.boot).
Proof.
  exact (load_invalid_path_only_sets_message "./nonexistent.so" Enabled
           Implementation_default (Sim.start Sim.boot) eq_refl
           (or_intror eq_refl)).
Defined.

(** A readable file that is no loadable object, on the loader without
    diagnostics. *)
Lemma load_refused_without_diagnostic_witness :
  exists (d' : Implementation) (e' : Env Quiet.QuietWorld),
    DynamicLibrary.load "./broken.so" Enabled Implementation_default
      (Quiet.start Quiet.boot) = Ret false d' e' /\
    path (lib d') = "./broken.so" /\
    error_message d' = "Failed to load library './broken.so': Unknown error".
Proof.
  destruct (load_refused_without_diagnostic "./broken.so" Enabled
              Implementation_default (Quiet.start Quiet.boot) true
              Implementation_default (Quiet.start Quiet.boot)
              Quiet.boot Quiet.boot)
    as (d' & Hload & _ & Hp & _ & _ & Hm).
  - reflexivity.
  - discriminate.
  - reflexivity.
  - reflexivity.
  - reflexivity.
  - exists d'. eexists. split; [exact Hload|]. split; [exact Hp | exact Hm].
Defined.

(** libexample overwritten by something that is no loadable object, on
    the POSIX loader. *)
Lemma load_refused_with_diagnostic_is_undefined_witness :
  DynamicLibrary.load "./libexample.so" Enabled Implementation_default
    (Sim.env_after [Sim.Rebuilt "./libexample.so" 1500 nullptr])
  = Undefined.
Proof.
  eapply (load_refused_with_diagnostic_is_undefined "./libexample.so" Enabled
            Implementation_default
            (Sim.env_after [Sim.Rebuilt "./libexample.so" 1500 nullptr])
            true Implementation_default
            (Sim.env_after [Sim.Rebuilt "./libexample.so" 1500 nullptr])
            "invalid ELF header").
  - reflexivity.
  - discriminate.
  - reflexivity.
  - reflexivity.
  - reflexivity.
  - reflexivity.
Defined.

(** "math" is registered in an empty manager. *)
Lemma loadLibrary_registers_new_name_witness :
  exists (ptr : positive) (mgr' : ManagerImplementation)
         (e' : Env Sim.SimWorld),
    DynamicLibraryManager.loadLibrary "math" "./libexample.so" Enabled
      Sim.manager_empty (Sim.start Sim.boot)
    = Returned (Some ptr) mgr' e' /\
    DynamicLibraryManager.getLibrary "math" mgr' e'
    = Returned (Some ptr) mgr' e'.
Proof.
  assert (Hbuilt :
    DynamicLibrary.DynamicLibrary_from_path "./libexample.so" Enabled
      (Sim.start Sim.boot)
    = Built
        (Sim.object_after [Sim.Call (OpLoad "./libexample.so" Enabled)])
        (Sim.env_after [Sim.Call (OpLoad "./libexample.so" Enabled)])).
  { vm_compute. reflexivity. }
  destruct (loadLibrary_registers_new_name "math" "./libexample.so" Enabled
              Sim.manager_empty (Sim.start Sim.boot) _ _ eq_refl Hbuilt)
    as (ptr & mgr' & Hload & _ & _ & _ & Hget).
  exists ptr, mgr'. eexists. split; [exact Hload | apply Hget].
Defined.

(** A registration with an empty path. *)
Lemma loadLibrary_invalid_path_raises_witness :
  DynamicLibraryManager.loadLibrary "ghost" "" Enabled Sim.manager_empty
    (Sim.start Sim.boot)
  = Raised "Library path cannot be empty" Sim.manager_empty
      (Sim.start Sim.boot).
Proof.
  exact (proj1 (loadLibrary_invalid_path_raises "ghost" "" Enabled
                  Sim.manager_empty (Sim.start Sim.boot) eq_refl
                  (or_introl eq_refl))).
Defined.

(** [add] is resolved for the first time on a loaded libexample. *)
Lemma getSymbol_resolves_and_caches_witness :
  exists e' : Env Sim.SimWorld,
    DynamicLibrary.getSymbolInternal "add"
      (Sim.object_after [Sim.Call (OpLoad "./libexample.so" Disabled)])
      (Sim.env_after [Sim.Call (OpLoad "./libexample.so" Disabled)])
    = Ret 4196
        (remember "add" 4196
           (Sim.object_after [Sim.Call (OpLoad "./libexample.so" Disabled)]))
        e'.
Proof.
  eexists.
  eapply (getSymbol_resolves_and_caches "add"
            (Sim.object_after [Sim.Call (OpLoad "./libexample.so" Disabled)])
            (Sim.env_after [Sim.Call (OpLoad "./libexample.so" Disabled)])
            None 4196).
  - vm_compute. discriminate.
  - left. reflexivity.
  - vm_compute. reflexivity.
  - reflexivity.
  - reflexivity.
  - reflexivity.
Defined.

(** A name libexample does not export. *)
Lemma getSymbol_not_found_sets_message_witness :
  exists e' : Env Sim.SimWorld,
    DynamicLibrary.getSymbolInternal "missing"
      (Sim.object_after [Sim.Call (OpLoad "./libexample.so" Disabled)])
      (Sim.env_after [Sim.Call (OpLoad "./libexample.so" Disabled)])
    = Ret nullptr
        (assign_error_message
           "Symbol 'missing' not found in library './libexample.so': undefined symbol"
           (Sim.object_after [Sim.Call (OpLoad "./libexample.so" Disabled)]))
        e'.
Proof.
  eexists.
  eapply (getSymbol_not_found_sets_message "missing"
            (Sim.object_after [Sim.Call (OpLoad "./libexample.so" Disabled)])
            (Sim.env_after [Sim.Call (OpLoad "./libexample.so" Disabled)])
            None nullptr "undefined symbol").
  - vm_compute. discriminate.
  - left. reflexivity.
  - vm_compute. reflexivity.
  - reflexivity.
  - reflexivity.
  - reflexivity.
Defined.

(** A cached [add] is asked for again with auto-reload disabled. *)
Lemma getSymbol_without_reload_keeps_module_witness :
  exists (a : Z) (d' : Implementation) (e' : Env Sim.SimWorld),
    DynamicLibrary.getSymbolInternal "add"
      (Sim.object_after Sim.asked_missing) (Sim.env_after Sim.asked_missing)
    = Ret a d' e' /\
    handle (lib d') = 4096.
Proof.
  destruct (getSymbol_without_reload_keeps_module "add"
              (Sim.object_after Sim.asked_missing)
              (Sim.env_after Sim.asked_missing))
    as (a & d' & e' & Hget & Hh & _).
  - vm_compute. discriminate.
  - left. reflexivity.
  - exists a, d', e'. split; [exact Hget | exact Hh].
Defined.

(** libexample, written at second 1000, is loaded; nothing is reported
    until it is written again at second 1500. *)
Lemma checkForUpdates_after_load_witness :
  DynamicLibrary.checkForUpdates
    (Sim.object_after [Sim.Call (OpLoad "./libexample.so" Disabled)])
    (Sim.env_after [Sim.Call (OpLoad "./libexample.so" Disabled)])
  = Ret false
      (Sim.object_after [Sim.Call (OpLoad "./libexample.so" Disabled)])
      (Sim.env_after [Sim.Call (OpLoad "./libexample.so" Disabled)]) /\
  DynamicLibrary.checkForUpdates
    (Sim.object_after [Sim.Call (OpLoad "./libexample.so" Disabled)])
    (Sim.env_after [Sim.Call (OpLoad "./libexample.so" Disabled);
                    Sim.Rebuilt "./libexample.so" 1500 4096])
  = Ret true
      (Sim.object_after [Sim.Call (OpLoad "./libexample.so" Disabled)])
      (Sim.env_after [Sim.Call (OpLoad "./libexample.so" Disabled);
                      Sim.Rebuilt "./libexample.so" 1500 4096]).
Proof.
  assert (Hload :
    DynamicLibrary.load "./libexample.so" Disabled Implementation_default
      (Sim.start Sim.boot)
    = Ret true
        (Sim.object_after [Sim.Call (OpLoad "./libexample.so" Disabled)])
        (Sim.env_after [Sim.Call (OpLoad "./libexample.so" Disabled)])).
  { vm_compute. reflexivity. }
  assert (Hrange : -9223372036 <= 1000 <= 9223372036) by lia.
  pose proof (checkForUpdates_after_load "./libexample.so" Disabled
                Implementation_default (Sim.start Sim.boot) true
                Implementation_default (Sim.start Sim.boot) _ _ 1000
                eq_refl Hload eq_refl Hrange) as Hcheck.
  split.
  - apply (Hcheck _ 1000); [reflexivity | lia].
  - apply (Hcheck _ 1500); [reflexivity | lia].
Defined.


(** A library with [add] cached is reloaded, its file unchanged. *)
Lemma reload_success_drops_cache_witness :
  symbol_cache (lib (Sim.object_after Sim.resolved_add)) !! "add"
  = Some 4196 /\
  Implementation.needsReload (Sim.object_after Sim.resolved_add)
    (Sim.env_after Sim.resolved_add) = false /\
  symbol_cache
    (lib (Sim.object_of
            (DynamicLibrary.reload (Sim.object_after Sim.resolved_add)
               (Sim.env_after Sim.resolved_add)))) = ∅.
Proof.
  split; [vm_compute; reflexivity|]. split; [vm_compute; reflexivity|].
  assert (Hre :
    DynamicLibrary.reload (Sim.object_after Sim.resolved_add)
      (Sim.env_after Sim.resolved_add)
    = Ret true
        (Sim.object_of
           (DynamicLibrary.reload (Sim.object_after Sim.resolved_add)
              (Sim.env_after Sim.resolved_add)))
        (Sim.env_of
           (DynamicLibrary.reload (Sim.object_after Sim.resolved_add)
              (Sim.env_after Sim.resolved_add)))).
  { vm_compute. reflexivity. }
  destruct (reload_success_drops_cache _ _ _ _ Hre) as (_ & Hempty & _).
  exact Hempty.
Defined.

(** libexample is loaded, its file is overwritten by something that does
    not load, and [reload] is called on the loader without diagnostics:
    the probe still finds the resident module, the reload then fails. *)
Lemma reload_failure_leaves_unloaded_witness :
  handle (lib (Quiet.object_of Quiet.example_loaded)) = 4096 /\
  exists (d' : Implementation) (e' : Env Quiet.QuietWorld),
    DynamicLibrary.reload (Quiet.object_of Quiet.example_loaded)
      Quiet.example_overwritten = Ret false d' e' /\
    handle (lib d') = nullptr /\
    error_message d'
    = "Failed to reload library './libexample.so': Failed to load library './libexample.so': Unknown error".
Proof.
  split; [reflexivity|].
  assert (Hh : handle (lib (Quiet.object_of Quiet.example_loaded))
               <> nullptr) by (vm_compute; discriminate).
  assert (Hcan :
    Implementation.canReload (Quiet.object_of Quiet.example_loaded)
      Quiet.example_overwritten
    = Ret true
        (Quiet.object_of
           (Implementation.canReload (Quiet.object_of Quiet.example_loaded)
              Quiet.example_overwritten))
        (Quiet.env_of
           (Implementation.canReload (Quiet.object_of Quiet.example_loaded)
              Quiet.example_overwritten))).
  { vm_compute. reflexivity. }
  pose (d1 := Quiet.object_of
                (Implementation.canReload
                   (Quiet.object_of Quiet.example_loaded)
                   Quiet.example_overwritten)).
  pose (e1 := Quiet.env_of
                (Implementation.canReload
                   (Quiet.object_of Quiet.example_loaded)
                   Quiet.example_overwritten)).
  assert (Hun :
    Implementation.unloadInternal d1 e1
    = Ret true (Quiet.object_of (Implementation.unloadInternal d1 e1))
        (Quiet.env_of (Implementation.unloadInternal d1 e1))).
  { vm_compute. reflexivity. }
  pose (w := snd (dlopen
                    (sleep_for
                       (world
                          (Quiet.env_of
                             (Implementation.unloadInternal d1 e1))) 10)
                    "./libexample.so" RTLD_NOW_LOCAL)).
  destruct (reload_failure_leaves_unloaded
              (Quiet.object_of Quiet.example_loaded)
              Quiet.example_overwritten d1 e1 true _ _ w w Hh Hcan Hun)
    as (d' & Hre & Hn & _ & Hm & _).
  - vm_compute. reflexivity.
  - reflexivity.
  - exists d'. eexists. split; [exact Hre|]. split; [exact Hn | exact Hm].
Defined.

(** libexample is loaded and reloaded while the [dlclose] of the unload
    reports an error. *)
Lemma reload_continues_after_failed_unload_witness :
  exists (d' : Implementation) (e' : Env Quiet.QuietWorld),
    DynamicLibrary.reload (Quiet.object_of Quiet.example_loaded)
      Quiet.example_second_close_fails = Ret true d' e' /\
    handle (lib d') = 4096 /\
    error_message d' = "Warning: Unload failed, attempting reload anyway".
Proof.
  assert (Hh : handle (lib (Quiet.object_of Quiet.example_loaded))
               <> nullptr) by (vm_compute; discriminate).
  assert (Hcan :
    Implementation.canReload (Quiet.object_of Quiet.example_loaded)
      Quiet.example_second_close_fails
    = Ret true
        (Quiet.object_of
           (Implementation.canReload (Quiet.object_of Quiet.example_loaded)
              Quiet.example_second_close_fails))
        (Quiet.env_of
           (Implementation.canReload (Quiet.object_of Quiet.example_loaded)
              Quiet.example_second_close_fails))).
  { vm_compute. reflexivity. }
  pose (w1 := snd (dlclose
                     (world
                        (Quiet.env_of
                           (Implementation.canReload
                              (Quiet.object_of Quiet.example_loaded)
                              Quiet.example_second_close_fails)))
                     4096)).
  destruct (reload_continues_after_failed_unload
              (Quiet.object_of Quiet.example_loaded)
              Quiet.example_second_close_fails _ _ 1 4096 w1 w1
              (snd (dlopen (sleep_for w1 10) "./libexample.so"
                      RTLD_NOW_LOCAL))
              Hh Hcan)
    as (d' & Hre & Hh' & _ & _ & Hm).
  - vm_compute. reflexivity.
  - discriminate.
  - reflexivity.
  - vm_compute. reflexivity.
  - discriminate.
  - exists d'. eexists. split; [exact Hre|]. split; [exact Hh' | exact Hm].
Defined.

(** libexample is loaded and unloaded; [add] is then asked for. *)
Lemma operations_after_unload_witness :
  DynamicLibrary.getSymbolInternal "add"
    (Sim.object_after Sim.loaded_then_unloaded)
    (Sim.env_after Sim.loaded_then_unloaded)
  = Ret nullptr
      (assign_error_message "Library not loaded"
         (Sim.object_after Sim.loaded_then_unloaded))
      (Sim.env_after Sim.loaded_then_unloaded).
Proof.
  assert (Hun :
    DynamicLibrary.unload
      (Sim.object_after [Sim.Call (OpLoad "./libexample.so" Enabled)])
      (Sim.env_after [Sim.Call (OpLoad "./libexample.so" Enabled)])
    = Ret true (Sim.object_after Sim.loaded_then_unloaded)
        (Sim.env_after Sim.loaded_then_unloaded)).
  { vm_compute. reflexivity. }
  exact (proj1 (operations_after_unload _ _ _ _ _ Hun "add"
                  (Sim.env_after Sim.loaded_then_unloaded))).
Defined.
